(** * Statblock component: column resolution and responsive reflow

    A shallow embedding of the script part of the statblock Svelte
    component (the resolved rendering parameters [maxColumns],
    [columnWidth], [canDice], [canRender], the resize callback
    [setColumns]/[onResize], the mount and destroy hooks, the CSS class
    list) together with the fields of [Monster] and [StatblockData]
    that it reads. *)

From Stdlib Require Import ZArith QArith Qround Lqa Lia Bool List.
From Stdlib Require Import Ascii String DecimalString DecimalN.
From Stdlib Require Nnat Qcanon DecimalPos.
Import ListNotations.

Set Warnings "-register-all".

Local Open Scope Z_scope.

(** ** The JavaScript values the component computes with *)

Module JS.

(** A JavaScript [number].  A finite value is the rational it denotes:
    rounding to binary64 is not modelled, and neither is the sign of
    zero, which none of the operations below can observe. *)
Inductive number : Type :=
| NaN
| PosInfinity
| NegInfinity
| Finite (q : Q).

Definition of_Z (z : Z) : number := Finite (inject_Z z).

(** [a ?? b] *)
Definition coalesce {A : Type} (a b : option A) : option A :=
  match a with
  | Some _ => a
  | None => b
  end.

(** [Number(v)] for a value that is a number or [undefined]. *)
Definition Number (v : option number) : number :=
  match v with
  | Some n => n
  | None => NaN
  end.

Definition isNaN (n : number) : bool :=
  match n with
  | NaN => true
  | _ => false
  end.

(** [a < b]; every comparison with [NaN] is false. *)
Definition lt (a b : number) : bool :=
  match a, b with
  | NaN, _ | _, NaN => false
  | PosInfinity, _ => false
  | _, NegInfinity => false
  | NegInfinity, _ => true
  | _, PosInfinity => true
  | Finite x, Finite y => negb (Qle_bool y x)
  end.

(** [a <= b] *)
Definition le (a b : number) : bool :=
  match a, b with
  | NaN, _ | _, NaN => false
  | NegInfinity, _ => true
  | _, PosInfinity => true
  | PosInfinity, _ => false
  | _, NegInfinity => false
  | Finite x, Finite y => Qle_bool x y
  end.

(** [a > b] *)
Definition gt (a b : number) : bool := lt b a.

(** [Math.max(a, b)] and [Math.min(a, b)]: [NaN] as soon as one argument
    is. *)
Definition Math_max (a b : number) : number :=
  match a, b with
  | NaN, _ | _, NaN => NaN
  | _, _ => if lt a b then b else a
  end.

Definition Math_min (a b : number) : number :=
  match a, b with
  | NaN, _ | _, NaN => NaN
  | _, _ => if lt b a then b else a
  end.

Definition Math_floor (a : number) : number :=
  match a with
  | Finite q => of_Z (Qfloor q)
  | _ => a
  end.

Definition is_zero (q : Q) : bool := Qeq_bool q 0.
Definition is_neg (q : Q) : bool := negb (Qle_bool 0 q).

(** [a / b] *)
Definition div (a b : number) : number :=
  match a, b with
  | NaN, _ | _, NaN => NaN
  | Finite x, Finite y =>
      if is_zero y
      then if is_zero x then NaN
           else if is_neg x then NegInfinity else PosInfinity
      else Finite (x / y)
  | Finite _, _ => Finite 0
  | PosInfinity, Finite y => if is_neg y then NegInfinity else PosInfinity
  | NegInfinity, Finite y => if is_neg y then PosInfinity else NegInfinity
  | _, _ => NaN
  end.

(** *** Strings *)

Local Open Scope string_scope.
Local Open Scope Z_scope.

Definition digits (n : N) : string := NilZero.string_of_uint (N.to_uint n).

Fixpoint zeros (n : nat) : string :=
  match n with
  | O => ""
  | S k => String "0" (zeros k)
  end.

(** The decimal form [s * 10 ^ e] of a positive rational [a / b], with
    [s] not a multiple of ten: the [n], [k], [s] of Number::toString are
    read off it.  [scale] clears the denominator, [strip] removes the
    trailing zeros.  A rational whose expansion does not end is not the
    value of any number; its expansion is cut when the fuel runs out. *)
Fixpoint scale (fuel : nat) (a b : N) (e : Z) : N * Z :=
  if (a mod b =? 0)%N then ((a / b)%N, e)
  else match fuel with
       | O => ((a / b)%N, e)
       | S f => scale f (10 * a)%N b (e - 1)
       end.

Fixpoint strip (fuel : nat) (s : N) (e : Z) : N * Z :=
  match fuel with
  | O => (s, e)
  | S f => if (0 <? s)%N && (s mod 10 =? 0)%N
           then strip f (s / 10)%N (e + 1)
           else (s, e)
  end.

Definition decimal (q : Q) : N * Z :=
  let r := Qred q in
  let b := Npos (Qden r) in
  let '(s, e) := scale (S (N.to_nat (N.log2 b))) (Z.to_N (Qnum r)) b 0 in
  strip (S (N.to_nat (N.log2 s))) s e.

(** Number::toString(x) in radix 10, for [x > 0]. *)
Definition positive_toString (q : Q) : string :=
  let '(s, e) := decimal q in
  let ds := digits s in
  let k := Z.of_nat (String.length ds) in
  let n := k + e in
  if (-5 <=? n) && (n <=? 21) then
    if k <=? n then ds ++ zeros (Z.to_nat (n - k))
    else if 0 <? n then
      substring 0 (Z.to_nat n) ds ++ "." ++
      substring (Z.to_nat n) (Z.to_nat (k - n)) ds
    else "0." ++ zeros (Z.to_nat (- n)) ++ ds
  else
    let exponent :=
      (if n <? 0 then "-" else "+") ++ digits (Z.to_N (Z.abs (n - 1))) in
    if k =? 1 then ds ++ "e" ++ exponent
    else substring 0 1 ds ++ "." ++
         substring 1 (Z.to_nat (k - 1)) ds ++ "e" ++ exponent.

Definition toString (x : number) : string :=
  match x with
  | NaN => "NaN"
  | PosInfinity => "Infinity"
  | NegInfinity => "-Infinity"
  | Finite q =>
      if is_zero q then "0"
      else if is_neg q then "-" ++ positive_toString (- q)
      else positive_toString q
  end.

(** The template literal [`${v}`] for a number or [undefined]. *)
Definition template_literal (v : option number) : string :=
  match v with
  | Some x => toString x
  | None => "undefined"
  end.

Definition is_digit (c : ascii) : bool :=
  (48 <=? nat_of_ascii c)%nat && (nat_of_ascii c <=? 57)%nat.

(** [s.replace(/\D/g, "")] *)
Fixpoint replace_non_digits (s : string) : string :=
  match s with
  | EmptyString => EmptyString
  | String c r =>
      if is_digit c then String c (replace_non_digits r)
      else replace_non_digits r
  end.

Fixpoint digits_value (s : string) (acc : N) : option N :=
  match s with
  | EmptyString => Some acc
  | String c r =>
      if is_digit c
      then digits_value r (10 * acc + (N_of_ascii c - 48))%N
      else None
  end.

(** [Number(s)] for a string: the empty string is 0 and a string of
    decimal digits is its value.  Signs, fractions, exponents, radix
    prefixes and white space are left out (such a string is [NaN] here):
    the component converts only what [replace_non_digits] returns. *)
Definition StringToNumber (s : string) : number :=
  match digits_value s 0 with
  | Some v => of_Z (Z.of_N v)
  | None => NaN
  end.

End JS.

Import JS.

Local Open Scope string_scope.
Local Open Scope Z_scope.

Notation "a ?? b" := (coalesce a b) (at level 45, right associativity).

(** [a ?? b] where [b] is never [undefined]. *)
Definition or_else {A : Type} (a : option A) (b : A) : A :=
  match a with
  | Some v => v
  | None => b
  end.

(** Truthiness of a boolean that may be [undefined]. *)
Definition truthy (v : option bool) : bool := or_else v false.

(** ** Data model *)

(** The statblock parameters of [Monster] (index.ts) and its [name].
    The component receives a [Partial<Monster>]: any field may be
    absent. *)
Module Monster.
Record t : Type := {
  name : option string;
  dice : option bool;
  render : option bool;
  columns : option number;
  columnWidth : option number;
  forceColumns : option bool
}.
End Monster.

(** Modelled from the spec: the [Layout] declaration of
    src/layouts/layout.types is not among the sources.  A layout has a
    stable id, a display name and default column count and width; the
    component also reads its [forceColumns]. *)
Module Layout.
Record t : Type := {
  id : string;
  name : string;
  columns : option number;
  columnWidth : option number;
  forceColumns : option bool
}.
End Layout.

(** Modelled from the spec: the [StatblockItem] declaration of
    src/layouts/layout.types is not among the sources.  A block carries
    its [type]; a block of type "layout" names the embedded layout by
    id; a container owns its [nested] blocks.  The component reads these
    three properties and nothing else. *)
Inductive StatblockItem : Type :=
  Block (type : string) (layout : option string)
        (nested : option (list StatblockItem)).

(** The two settings of [StatblockData] (index.ts) the component
    reads. *)
Module StatblockData.
Record t : Type := {
  useDice : bool;
  renderDice : bool
}.
End StatblockData.

(** Modelled from the spec: the plugin class of src/main is not among
    the sources.  The component reads its getter [canUseDiceRoller]
    (whether the external dice roller is there), its [settings] and the
    layouts of the registry, [manager.getAllLayouts()]. *)
Module Plugin.
Record t : Type := {
  canUseDiceRoller : bool;
  settings : StatblockData.t;
  getAllLayouts : list Layout.t
}.
End Plugin.

(** ** Layout resolution: the constants of the component *)

Module Resolution.

Definition maxColumns (monster : Monster.t) (layout : Layout.t) : number :=
  let c := Number (Monster.columns monster ?? Layout.columns layout) in
  if negb (isNaN c) && gt c (Finite 0) then c else Finite 2.

Definition monsterColumnWidth (monster : Monster.t) : number :=
  StringToNumber
    (replace_non_digits (template_literal (Monster.columnWidth monster))).

Definition columnWidth (monster : Monster.t) (layout : Layout.t) : number :=
  let w := monsterColumnWidth monster in
  if negb (isNaN (Number (Some w ?? Layout.columnWidth layout))) &&
     gt (Number (Some w ?? Layout.columnWidth layout)) (Finite 0)
  then w
  else Finite 400.

Definition canDice (monster : Monster.t) (plugin : Plugin.t) : bool :=
  Plugin.canUseDiceRoller plugin &&
  or_else (Monster.dice monster)
          (StatblockData.useDice (Plugin.settings plugin)).

Definition canRender (monster : Monster.t) (plugin : Plugin.t) : bool :=
  or_else (Monster.render monster)
          (StatblockData.renderDice (Plugin.settings plugin)).

(** "A positive number": what the guards of the two constants test. *)
Definition positive (x : number) : bool := negb (isNaN x) && gt x (Finite 0).

(** The column count and width as the specification words them: the
    creature's override if it is a positive number, else the layout's
    default if it is one, else the fallback. *)
Definition spec_maxColumns (monster : Monster.t) (layout : Layout.t) : number :=
  match Monster.columns monster with
  | Some c => if positive c then c else
      match Layout.columns layout with
      | Some d => if positive d then d else Finite 2
      | None => Finite 2
      end
  | None =>
      match Layout.columns layout with
      | Some d => if positive d then d else Finite 2
      | None => Finite 2
      end
  end.

Definition spec_columnWidth (monster : Monster.t) (layout : Layout.t) : number :=
  if positive (monsterColumnWidth monster) then monsterColumnWidth monster
  else match Layout.columnWidth layout with
       | Some d => if positive d then d else Finite 400
       | None => Finite 400
       end.

End Resolution.

(** ** The component *)

Module Statblock.

(** The props the script reads. *)
Record Props : Type := {
  monster : Monster.t;
  plugin : Plugin.t;
  statblock : list StatblockItem;
  layout : Layout.t;
  icons : bool
}.

(** The four [const]s resolved when the instance is created. *)
Record Consts : Type := {
  maxColumns : number;
  columnWidth : number;
  canDice : bool;
  canRender : bool
}.

(** Where the instance is in its life: the script has run, [onMount]
    has run, [onDestroy] has run. *)
Inductive Phase : Type := Created | Mounted | Destroyed.

(** An instance: the current props, the [monsterStore], the constants,
    the reactive variables [columns] and [ready], whether [observer]
    observes [container], and whether the debounced [onResize] has a
    timer running. *)
Record t : Type := {
  props : Props;
  monsterStore : Monster.t;
  consts : Consts;
  columns : number;
  ready : bool;
  observing : bool;
  pending : bool;
  phase : Phase
}.

Definition set_props (p : Props) (c : t) : t :=
  {| props := p; monsterStore := monsterStore c; consts := consts c;
     columns := columns c; ready := ready c; observing := observing c;
     pending := pending c; phase := phase c |}.

Definition set_monsterStore (m : Monster.t) (c : t) : t :=
  {| props := props c; monsterStore := m; consts := consts c;
     columns := columns c; ready := ready c; observing := observing c;
     pending := pending c; phase := phase c |}.

Definition set_columns (n : number) (c : t) : t :=
  {| props := props c; monsterStore := monsterStore c; consts := consts c;
     columns := n; ready := ready c; observing := observing c;
     pending := pending c; phase := phase c |}.

Definition set_ready (b : bool) (c : t) : t :=
  {| props := props c; monsterStore := monsterStore c; consts := consts c;
     columns := columns c; ready := b; observing := observing c;
     pending := pending c; phase := phase c |}.

Definition set_observing (b : bool) (c : t) : t :=
  {| props := props c; monsterStore := monsterStore c; consts := consts c;
     columns := columns c; ready := ready c; observing := b;
     pending := pending c; phase := phase c |}.

Definition set_pending (b : bool) (c : t) : t :=
  {| props := props c; monsterStore := monsterStore c; consts := consts c;
     columns := columns c; ready := ready c; observing := observing c;
     pending := b; phase := phase c |}.

Definition set_phase (ph : Phase) (c : t) : t :=
  {| props := props c; monsterStore := monsterStore c; consts := consts c;
     columns := columns c; ready := ready c; observing := observing c;
     pending := pending c; phase := ph |}.

(** The script, run once when the instance is created: the store and
    the constants are computed from the props of that moment, [columns]
    starts at [maxColumns] and [ready] at [false]; the observer exists
    but observes nothing yet. *)
Definition init (p : Props) : t :=
  {| props := p;
     monsterStore := monster p;
     consts :=
       {| maxColumns := Resolution.maxColumns (monster p) (layout p);
          columnWidth := Resolution.columnWidth (monster p) (layout p);
          canDice := Resolution.canDice (monster p) (plugin p);
          canRender := Resolution.canRender (monster p) (plugin p) |};
     columns := Resolution.maxColumns (monster p) (layout p);
     ready := false;
     observing := false;
     pending := false;
     phase := Created |}.

(** Whether force-columns is in effect: [monster.forceColumns ??
    layout.forceColumns], read from the props of the moment. *)
Definition forced (c : t) : bool :=
  truthy (Monster.forceColumns (monster (props c)) ??
          Layout.forceColumns (layout (props c))).

(** [observer.disconnect()] *)
Definition disconnect (c : t) : t := set_observing false c.

(** [setColumns].  [clientWidth] is what [container.clientWidth] reads:
    [None] when [container] is [null], in which case the read throws
    and the function has no result. *)
Definition setColumns (clientWidth : option Z) (c : t) : option t :=
  if forced c then
    Some (disconnect (set_columns (maxColumns (consts c)) c))
  else
    match clientWidth with
    | None => None
    | Some width =>
        Some (set_columns
                (Math_min
                   (Math_max
                      (Math_floor (div (of_Z width) (columnWidth (consts c))))
                      (Finite 1))
                   (maxColumns (consts c)))
                c)
    end.

(** The function that [onResize] debounces. *)
Definition onResize_callback (clientWidth : option Z) (c : t) : option t :=
  match setColumns clientWidth c with
  | Some c' => Some (if negb (ready c') then set_ready true c' else c')
  | None => None
  end.

(** A call of the debounced [onResize]: it starts the 100 ms timer,
    unless one is running (the timer is not reset). *)
Definition onResize (c : t) : t := set_pending true c.

(** [onMount]: [onResize()], then [observer.observe(container)]. *)
Definition onMount (c : t) : t :=
  set_phase Mounted (set_observing true (onResize c)).

(** [onDestroy]: [observer.disconnect()]. *)
Definition onDestroy (c : t) : t := set_phase Destroyed (disconnect c).

(** [$: $monsterStore = monster], run when the [monster] prop is
    replaced. *)
Definition set_monster (m : Monster.t) (c : t) : t :=
  set_monsterStore m
    (set_props {| monster := m; plugin := plugin (props c);
                  statblock := statblock (props c);
                  layout := layout (props c); icons := icons (props c) |} c).

Definition set_layout (l : Layout.t) (c : t) : t :=
  set_props {| monster := monster (props c); plugin := plugin (props c);
               statblock := statblock (props c);
               layout := l; icons := icons (props c) |} c.

(** What can happen to an instance. *)
Inductive Event : Type :=
| Mount                          (* the component is mounted *)
| Resize                         (* the observer delivers a size change *)
| Elapse (clientWidth : option Z) (* the debounce timer runs the callback,
                                    which reads [container.clientWidth]:
                                    a width, or nothing if [container]
                                    is [null] *)
| SetMonster (m : Monster.t)     (* the parent replaces the creature *)
| SetLayout (l : Layout.t)       (* the parent replaces the layout *)
| Destroy.                       (* the component is destroyed *)

Definition alive (c : t) : bool :=
  match phase c with
  | Destroyed => false
  | _ => true
  end.

(** [bind:this] sets [container] before [onMount] runs and resets it to
    [null] once the component is destroyed, not necessarily at once: a
    mounted instance reads a width, an instance that was never mounted
    reads none, a destroyed one may read either. *)
Definition reads (clientWidth : option Z) (c : t) : bool :=
  match phase c, clientWidth with
  | Created, Some _ => false
  | Mounted, None => false
  | _, _ => true
  end.

(** No event of the run replaces a prop. *)
Definition quiet (es : list Event) : bool :=
  forallb (fun e => match e with
                    | SetMonster _ | SetLayout _ => false
                    | _ => true
                    end) es.

(** Force-columns read as "set by the creature or by the layout". *)
Definition set_by_either (c : t) : bool :=
  truthy (Monster.forceColumns (monster (props c))) ||
  truthy (Layout.forceColumns (layout (props c))).

(** [clamp(x, lo, hi)]: [x] raised to [lo] if it is below, then lowered
    to [hi] if it is above. *)
Definition clamp (x lo hi : number) : number :=
  let y := if lt x lo then lo else x in
  if lt hi y then hi else y.

(** One event.  [None]: the event cannot happen in this state (the
    observer delivers only while it observes, a timer elapses only if
    it runs, the hooks run once, props are set on a live instance).
    Nothing cancels the timer: it may elapse after [onDestroy].  A
    callback that throws leaves the instance as it was, the timer
    spent. *)
Definition step (e : Event) (c : t) : option t :=
  match e with
  | Mount =>
      match phase c with
      | Created => Some (onMount c)
      | _ => None
      end
  | Resize => if observing c then Some (onResize c) else None
  | Elapse clientWidth =>
      if pending c && reads clientWidth c then
        let c0 := set_pending false c in
        match onResize_callback clientWidth c0 with
        | Some c' => Some c'
        | None => Some c0
        end
      else None
  | SetMonster m => if alive c then Some (set_monster m c) else None
  | SetLayout l => if alive c then Some (set_layout l c) else None
  | Destroy => if alive c then Some (onDestroy c) else None
  end.

(** A run: the events that can happen do, one after the other; one that
    cannot is skipped. *)
Fixpoint run (es : list Event) (c : t) : t :=
  match es with
  | [] => c
  | e :: es' => run es' (or_else (step e c) c)
  end.

(** The count [setColumns] computes from a measured width. *)
Definition recomputed (width : Z) (c : t) : number :=
  Math_min (Math_max (Math_floor (div (of_Z width) (columnWidth (consts c))))
                     (Finite 1))
           (maxColumns (consts c)).

(** The constants are well formed: the maximum is a positive number and
    the width a whole number of at least 1. *)
Definition resolved (c : t) : Prop :=
  Resolution.positive (maxColumns (consts c)) = true /\
  exists z : Z, 0 < z /\ columnWidth (consts c) = of_Z z.

(** The column count is above zero and at most the maximum, and it is
    at least 1 exactly when the maximum is. *)
Definition columns_in_range (c : t) : Prop :=
  gt (columns c) (Finite 0) = true /\
  le (columns c) (maxColumns (consts c)) = true /\
  le (Finite 1) (columns c) = le (Finite 1) (maxColumns (consts c)).

(** *** The class list and the markup *)

Section Classes.

(** [slugifyLayoutForCss] of src/util/util, which is not among the
    sources: any function of a string and an optional fallback. *)
Variable slugifyLayoutForCss : string -> option string -> string.

(** [plugin.manager.getAllLayouts().find((l) => l.id == id)] *)
Definition find_layout (plugin : Plugin.t) (id : option string)
  : option Layout.t :=
  find (fun l => match id with
                 | Some i => String.eqb (Layout.id l) i
                 | None => false
                 end)
       (Plugin.getAllLayouts plugin).

(** The classes one block contributes: its own if it embeds a known
    layout, then those of its nested blocks. *)
Fixpoint block_classes (plugin : Plugin.t) (block : StatblockItem)
  : list string :=
  match block with
  | Block type layout nested =>
      ((if String.eqb type "layout" then
          match find_layout plugin layout with
          | Some l => [slugifyLayoutForCss (Layout.name l) None]
          | None => []
          end
        else []) ++
       match nested with
       | Some blocks => flat_map (block_classes plugin) blocks
       | None => []
       end)%list
  end.

Definition getNestedLayouts (plugin : Plugin.t) (blocks : list StatblockItem)
  : list string :=
  flat_map (block_classes plugin) blocks.

Definition name (p : Props) : string :=
  slugifyLayoutForCss (or_else (Monster.name (monster p)) "") (Some "no-name").

Definition layoutName (p : Props) : string :=
  slugifyLayoutForCss (Layout.name (layout p)) (Some "no-layout").

Definition classes (p : Props) : list string :=
  filter (fun n => negb (String.length n =? 0)%nat)
         (name p :: layoutName p :: getNestedLayouts (plugin p) (statblock p)).

(** The children of [div.container]: nothing until [ready]; then the
    statblock with its classes, the creature of the store and the
    column counts handed to [ColumnContainer], and the menu icon if
    [icons] is set. *)
Inductive Markup : Type :=
| StatblockDiv (class : list string) (creature : Monster.t)
               (columns maxColumns : number)
| Icons.

Definition template (c : t) : list Markup :=
  if ready c then
    StatblockDiv (classes (props c)) (monsterStore c)
                 (columns c) (maxColumns (consts c))
    :: (if icons (props c) then [Icons] else [])
  else [].

End Classes.

End Statblock.

(** ** Sample inputs *)

Module Sample.

Definition monster (columns columnWidth : option number)
                   (forceColumns : option bool) : Monster.t :=
  {| Monster.name := Some "Goblin"; Monster.dice := None;
     Monster.render := None; Monster.columns := columns;
     Monster.columnWidth := columnWidth;
     Monster.forceColumns := forceColumns |}.

Definition layout (columns columnWidth : option number)
                  (forceColumns : option bool) : Layout.t :=
  {| Layout.id := "basic-5e"; Layout.name := "Basic 5e Layout";
     Layout.columns := columns; Layout.columnWidth := columnWidth;
     Layout.forceColumns := forceColumns |}.

Definition plugin : Plugin.t :=
  {| Plugin.canUseDiceRoller := true;
     Plugin.settings := {| StatblockData.useDice := true;
                           StatblockData.renderDice := false |};
     Plugin.getAllLayouts := [layout None None None] |}.

Definition props (m : Monster.t) (l : Layout.t) : Statblock.Props :=
  {| Statblock.monster := m; Statblock.plugin := plugin;
     Statblock.statblock :=
       [Block "group" None
          (Some [Block "heading" None None;
                 Block "layout" (Some "basic-5e") None])];
     Statblock.layout := l; Statblock.icons := true |}.

(** Creature override 3, layout default 2. *)
Definition goblin : Statblock.Props :=
  props (monster (Some (Finite 3)) None None)
        (layout (Some (Finite 2)) None None).

(** The same with force-columns set by the creature. *)
Definition pinned_goblin : Statblock.Props :=
  props (monster (Some (Finite 3)) None (Some true))
        (layout (Some (Finite 2)) None None).

(** The same creature shown by a plugin without dice roller and without
    the menu icon. *)
Definition plain_goblin : Statblock.Props :=
  {| Statblock.monster := Statblock.monster goblin;
     Statblock.plugin :=
       {| Plugin.canUseDiceRoller := false;
          Plugin.settings := Plugin.settings plugin;
          Plugin.getAllLayouts := Plugin.getAllLayouts plugin |};
     Statblock.statblock := Statblock.statblock goblin;
     Statblock.layout := Statblock.layout goblin;
     Statblock.icons := false |}.

(** A slug function: the text itself, the fallback for an empty text. *)
Definition slug (text : string) (fallback : option string) : string :=
  if (String.length text =? 0)%nat then or_else fallback "" else text.

End Sample.

(** ** The menu *)

Module Menu.

(** What a click on an item does. *)
Inductive Action : Type :=
| Save                     (* dispatch("save") *)
| CopyYaml                 (* the creature's YAML to the clipboard *)
| Export                   (* dispatch("export") *)
| GenerateImage            (* generateAIImage() *)
| GenerateImageFromPhoto   (* generateAIImageFromPhoto() *)
| ResetDice.               (* reset.set(true); reset.set(false) *)

Record Item : Type := {
  icon : string;
  title : string;
  disabled : bool;
  onClick : Action
}.

(** The items added to [menu] when the script runs, in order; [canSave]
    is the prop of that name, [canDice] the resolved constant. *)
Definition items (canSave canDice : bool) : list Item :=
  ([ {| icon := "save"; title := "Save to Bestiary";
        disabled := negb canSave; onClick := Save |};
     {| icon := "code"; title := "Copy YAML";
        disabled := false; onClick := CopyYaml |};
     {| icon := "image-down"; title := "Export as PNG";
        disabled := false; onClick := Export |};
     {| icon := "sparkles"; title := "Generate AI Image with OpenAI";
        disabled := false; onClick := GenerateImage |};
     {| icon := "camera"; title := "Generate AI Image from Photo";
        disabled := false; onClick := GenerateImageFromPhoto |} ] ++
   (if canDice then
      [ {| icon := "reset"; title := "Reset Dice";
           disabled := false; onClick := ResetDice |} ]
    else []))%list.

(** The [reset] store, a Svelte [writable<boolean>]: its value and what
    its subscribers have been told since it was created.  [set] tells
    them only a value that differs from the current one. *)
Record Store : Type := {
  value : bool;
  told : list bool
}.

(** [writable<boolean>(false)] *)
Definition reset : Store := {| value := false; told := [] |}.

Definition set (v : bool) (s : Store) : Store :=
  if Bool.eqb (value s) v then s
  else {| value := v; told := (told s ++ [v])%list |}.

(** A click on "Reset Dice". *)
Definition click (s : Store) : Store := set false (set true s).

End Menu.

(** ** The file of a generated image *)

Module Image.

(** [monster.note]: a link text, or an array of such, arrays within
    arrays included. *)
Inductive Note : Type :=
| Text (s : string)
| Array (items : list Note).

(** The two fields of the creature that [applyGeneratedImage] reads to
    find the creature's file. *)
Record Origin : Type := {
  path : option string;
  note : option Note
}.

(** [items.flat(Infinity)] *)
Fixpoint flat_item (item : Note) : list string :=
  match item with
  | Text s => [s]
  | Array items => flat_map flat_item items
  end.

Definition flat (items : list Note) : list string :=
  flat_map flat_item items.

(** [array.pop()]: the last element, [undefined] for an empty array. *)
Fixpoint pop {A : Type} (l : list A) : option A :=
  match l with
  | [] => None
  | [x] => Some x
  | _ :: rest => pop rest
  end.

(** [Array.isArray(note) ? note.flat(Infinity).pop() : note] *)
Definition notePath (n : Note) : option string :=
  match n with
  | Array items => pop (flat items)
  | Text s => Some s
  end.

(** Truthiness: of a text that may be absent, of a note that may be
    absent (an array is truthy, even an empty one). *)
Definition truthy_text (s : option string) : bool :=
  match s with
  | Some (String _ _) => true
  | _ => false
  end.

Definition truthy_note (n : option Note) : bool :=
  match n with
  | Some (Text s) => truthy_text (Some s)
  | Some (Array _) => true
  | None => false
  end.

(** [s.endsWith(suffix)] *)
Definition endsWith (s suffix : string) : bool :=
  (String.length suffix <=? String.length s)%nat &&
  String.eqb (substring (String.length s - String.length suffix)
                        (String.length suffix) s)
             suffix.

(** A text without a slash. *)
Definition no_slash (s : string) : bool :=
  forallb (fun c => negb (Ascii.eqb c "/")) (list_ascii_of_string s).

(** [s.split("/")] *)
Fixpoint split (s : string) : list string :=
  match s with
  | EmptyString => [EmptyString]
  | String c r =>
      if Ascii.eqb c "/" then EmptyString :: split r
      else match split r with
           | segment :: segments => String c segment :: segments
           | [] => [String c EmptyString]
           end
  end.

Section Vault.

(** [plugin.app.metadataCache.getFirstLinkpathDest(linkpath,
    sourcePath)] of the host, reduced to the path of the file it finds,
    if it finds one. *)
Variable getFirstLinkpathDest : option string -> string -> option string.

(** The file whose frontmatter [applyGeneratedImage] updates, if any:
    the creature's [path]; else the file its [note] links to from
    [context]; else [context] itself if it is a markdown file. *)
Definition sourceFile (monster : Origin) (context : string) : option string :=
  if truthy_text (path monster) then path monster
  else if truthy_note (note monster) then
    match note monster with
    | Some n =>
        match getFirstLinkpathDest (notePath n) context with
        | Some file => Some file
        | None => None
        end
    | None => None
    end
  else if truthy_text (Some context) && endsWith context ".md"
       then Some context
  else None.

(** The file that is updated: [if (sourceFile)]. *)
Definition updated (monster : Origin) (context : string) : option string :=
  if truthy_text (sourceFile monster context)
  then sourceFile monster context
  else None.

(** The notice shown once the file has been updated. *)
Definition notice (file : string) : string :=
  "Image updated in " ++ or_else (pop (split file)) "undefined".

End Vault.

End Image.

(** ** Numbers *)

Example toString_whole : toString (Finite 400) = "400".
Proof. reflexivity. Qed.

Example toString_fraction : toString (Finite 2.5) = "2.5".
Proof. reflexivity. Qed.

Example toString_negative : toString (Finite (-300)) = "-300".
Proof. reflexivity. Qed.

Example toString_small : toString (Finite (1 # 1000000)) = "0.000001".
Proof. reflexivity. Qed.

Example toString_exponent :
  toString (Finite 1000000000000000000000) = "1e+21" /\
  toString (Finite 12300000000000000000000) = "1.23e+22" /\
  toString (Finite (15 # 100000000)) = "1.5e-7".
Proof. repeat split. Qed.

Example monsterColumnWidth_samples :
  Resolution.monsterColumnWidth (Sample.monster None None None) = Finite 0 /\
  Resolution.monsterColumnWidth (Sample.monster None (Some (Finite 350)) None)
  = Finite 350 /\
  Resolution.monsterColumnWidth (Sample.monster None (Some (Finite 2.5)) None)
  = Finite 25 /\
  Resolution.monsterColumnWidth (Sample.monster None (Some (Finite (-300))) None)
  = Finite 300 /\
  Resolution.monsterColumnWidth (Sample.monster None (Some NaN) None)
  = Finite 0.
Proof. repeat split. Qed.

Lemma Qle_bool_false (x y : Q) : Qle_bool x y = false <-> (y < x)%Q.
Proof.
  split; intro H.
  - apply Qnot_le_lt. intro L. apply Qle_bool_iff in L. congruence.
  - destruct (Qle_bool x y) eqn:E; trivial.
    apply Qle_bool_iff in E. apply Qlt_not_le in H. contradiction.
Qed.

Ltac qbool :=
  repeat match goal with
  | H : Qle_bool _ _ = true |- _ => apply Qle_bool_iff in H
  | H : Qle_bool _ _ = false |- _ => apply Qle_bool_false in H
  | H : negb _ = true |- _ => apply negb_true_iff in H
  | H : negb _ = false |- _ => apply negb_false_iff in H
  | |- Qle_bool _ _ = true => apply Qle_bool_iff
  | |- Qle_bool _ _ = false => apply Qle_bool_false
  | |- negb _ = true => apply negb_true_iff
  | |- negb _ = false => apply negb_false_iff
  end.

(** A positive number is [Infinity] or a finite value above zero. *)
Lemma positive_cases (x : number) :
  Resolution.positive x = true ->
  x = PosInfinity \/ exists q, x = Finite q /\ (0 < q)%Q.
Proof.
  unfold Resolution.positive, gt.
  destruct x as [ | | | q]; simpl; try discriminate; auto.
  intro H. qbool. right. exists q. split; [reflexivity | assumption].
Qed.

Lemma inject_Z_pos (z : Z) : 0 < z -> (0 < inject_Z z)%Q.
Proof. intro H. unfold Qlt, inject_Z. simpl. lia. Qed.

Lemma is_zero_inject_Z (z : Z) : 0 < z -> is_zero (inject_Z z) = false.
Proof.
  intro H. unfold is_zero.
  destruct (Qeq_bool (inject_Z z) 0) eqn:E; trivial.
  apply Qeq_bool_iff in E. unfold Qeq, inject_Z in E. simpl in E. lia.
Qed.

(** The quotient of two integers, floored, is their integer quotient. *)
Lemma floor_div_of_Z (w z : Z) :
  0 < z -> Math_floor (div (of_Z w) (of_Z z)) = of_Z (w / z).
Proof.
  intro H. unfold div, of_Z. rewrite (is_zero_inject_Z z H).
  unfold Math_floor, of_Z. do 2 f_equal.
  destruct z as [ | p | p]; try lia.
  unfold Qdiv, Qinv, Qmult, inject_Z, Qfloor. simpl.
  now rewrite Z.mul_1_r.
Qed.

Lemma max_of_Z_1 (a : Z) : Math_max (of_Z a) (Finite 1) = of_Z (Z.max a 1).
Proof.
  unfold Math_max, of_Z, lt.
  destruct (Qle_bool 1 (inject_Z a)) eqn:E; simpl; qbool.
  - change 1%Q with (inject_Z 1) in E. rewrite <- Zle_Qle in E.
    now rewrite Z.max_l by lia.
  - change 1%Q with (inject_Z 1) in E. rewrite <- Zlt_Qlt in E.
    now rewrite Z.max_r by lia.
Qed.

(** ** Layout resolution *)

Lemma replace_non_digits_value (s : string) (acc : N) :
  exists v : N, digits_value (replace_non_digits s) acc = Some v.
Proof.
  revert acc. induction s as [ | c r IH]; intro acc; simpl.
  - eauto.
  - destruct (is_digit c) eqn:E; simpl; [rewrite E | ]; apply IH.
Qed.

(** The stripped override is a natural number, never [NaN]. *)
Lemma monsterColumnWidth_natural (monster : Monster.t) :
  exists v : N, Resolution.monsterColumnWidth monster = of_Z (Z.of_N v).
Proof.
  unfold Resolution.monsterColumnWidth, StringToNumber.
  destruct (replace_non_digits_value
              (template_literal (Monster.columnWidth monster)) 0) as [v ->].
  eauto.
Qed.

Lemma positive_of_Z (z : Z) : Resolution.positive (of_Z z) = (0 <? z).
Proof.
  unfold Resolution.positive, gt, lt, of_Z. simpl.
  destruct (0 <? z) eqn:E.
  - apply Z.ltb_lt in E. qbool. now apply inject_Z_pos.
  - apply Z.ltb_ge in E. qbool. change 0%Q with (inject_Z 0).
    now rewrite <- Zle_Qle.
Qed.

(** The resolved width is the stripped override when that is positive
    and 400 otherwise: the layout is not consulted. *)
Lemma columnWidth_resolved (monster : Monster.t) (layout : Layout.t) :
  Resolution.columnWidth monster layout =
  if Resolution.positive (Resolution.monsterColumnWidth monster)
  then Resolution.monsterColumnWidth monster
  else Finite 400.
Proof. reflexivity. Qed.

Lemma columnWidth_ignores_layout (monster : Monster.t) (l1 l2 : Layout.t) :
  Resolution.columnWidth monster l1 = Resolution.columnWidth monster l2.
Proof. now rewrite !columnWidth_resolved. Qed.

(** The resolved width is a whole number of at least 1. *)
Lemma columnWidth_pos_int (monster : Monster.t) (layout : Layout.t) :
  exists z : Z, 0 < z /\ Resolution.columnWidth monster layout = of_Z z.
Proof.
  rewrite columnWidth_resolved.
  destruct (monsterColumnWidth_natural monster) as [v ->].
  rewrite positive_of_Z.
  destruct (0 <? Z.of_N v) eqn:E.
  - apply Z.ltb_lt in E. eauto.
  - exists 400. split; [lia | reflexivity].
Qed.

Lemma maxColumns_positive (monster : Monster.t) (layout : Layout.t) :
  Resolution.positive (Resolution.maxColumns monster layout) = true.
Proof.
  unfold Resolution.maxColumns.
  fold (Resolution.positive
          (Number (Monster.columns monster ?? Layout.columns layout))).
  destruct (Resolution.positive
              (Number (Monster.columns monster ?? Layout.columns layout)))
    eqn:E; [exact E | reflexivity].
Qed.

(** C1, as the code has it.  The resolved maximum column count is the
    creature's [columns] when that is present and a positive number; it
    is the fallback 2 when the creature's [columns] is present and not a
    positive number, whatever the layout says; when the creature has no
    [columns], it is the layout's default if that is a positive number
    and 2 otherwise.  With creature override 3 and layout default 2 the
    result is 3. *)
Theorem maxColumns_resolved :
  (forall (monster : Monster.t) (layout : Layout.t),
     Resolution.maxColumns monster layout =
     match Monster.columns monster with
     | Some c => if Resolution.positive c then c else Finite 2
     | None =>
         match Layout.columns layout with
         | Some d => if Resolution.positive d then d else Finite 2
         | None => Finite 2
         end
     end) /\
  (forall w f w' f',
     Resolution.maxColumns (Sample.monster (Some (Finite 3)) w f)
                           (Sample.layout (Some (Finite 2)) w' f')
     = Finite 3).
Proof.
  split.
  - intros monster layout. unfold Resolution.maxColumns, Resolution.positive.
    destruct (Monster.columns monster) as [c | ]; simpl; [reflexivity | ].
    destruct (Layout.columns layout) as [d | ]; reflexivity.
  - reflexivity.
Qed.

(** C1, as the specification words it, fails: a creature whose [columns]
    is 0 with a layout whose default is 3 resolves to 2, not to 3. *)
Lemma maxColumns_invalid_override_skips_layout :
  let monster := Sample.monster (Some (Finite 0)) None None in
  let layout := Sample.layout (Some (Finite 3)) None None in
  Resolution.maxColumns monster layout = Finite 2 /\
  Resolution.spec_maxColumns monster layout = Finite 3 /\
  Resolution.maxColumns monster layout <>
  Resolution.spec_maxColumns monster layout.
Proof. repeat split. discriminate. Qed.

(** C2 at the input where the code departs from it: the creature has no
    [columnWidth], the layout's default is 300; the code resolves 400
    where the specification resolves 300. *)
Theorem columnWidth_layout_default_unused :
  let monster := Sample.monster None None None in
  let layout := Sample.layout None (Some (Finite 300)) None in
  Resolution.columnWidth monster layout = Finite 400 /\
  Resolution.spec_columnWidth monster layout = Finite 300.
Proof. split; reflexivity. Qed.

(** C5, as the code has it.  The defaults are the plugin's settings,
    not the layout's.  [canRender] is the creature's [render] when it
    has one and the [renderDice] setting otherwise; [canDice] is the
    creature's [dice] when it has one and the [useDice] setting
    otherwise, and in both cases only if the dice roller can be used.
    The layout has no part in either: two instances that differ in the
    layout only resolve the same two constants. *)
Theorem dice_overrides_take_precedence
  (monster : Monster.t) (plugin : Plugin.t) :
  Resolution.canRender monster plugin =
    match Monster.render monster with
    | Some override => override
    | None => StatblockData.renderDice (Plugin.settings plugin)
    end /\
  Resolution.canDice monster plugin =
    match Monster.dice monster with
    | Some override => Plugin.canUseDiceRoller plugin && override
    | None => Plugin.canUseDiceRoller plugin &&
              StatblockData.useDice (Plugin.settings plugin)
    end /\
  (forall statblock icons layout1 layout2,
     let p1 := {| Statblock.monster := monster; Statblock.plugin := plugin;
                  Statblock.statblock := statblock;
                  Statblock.layout := layout1; Statblock.icons := icons |} in
     let p2 := {| Statblock.monster := monster; Statblock.plugin := plugin;
                  Statblock.statblock := statblock;
                  Statblock.layout := layout2; Statblock.icons := icons |} in
     Statblock.canRender (Statblock.consts (Statblock.init p1))
     = Statblock.canRender (Statblock.consts (Statblock.init p2)) /\
     Statblock.canDice (Statblock.consts (Statblock.init p1))
     = Statblock.canDice (Statblock.consts (Statblock.init p2))).
Proof.
  unfold Resolution.canRender, Resolution.canDice.
  destruct (Monster.render monster), (Monster.dice monster); auto.
Qed.

(** C5, as stated, fails: the defaults are not the layout's.  The same
    creature without overrides, under the same layout and with the dice
    roller there, has dice parsed and rendered under one plugin setting
    and neither under the other. *)
Lemma dice_defaults_are_the_settings :
  let monster := Sample.monster None None None in
  let layout := Sample.layout None None None in
  let plugin (default : bool) :=
    {| Plugin.canUseDiceRoller := true;
       Plugin.settings := {| StatblockData.useDice := default;
                             StatblockData.renderDice := default |};
       Plugin.getAllLayouts := [layout] |} in
  let instance (default : bool) :=
    Statblock.init {| Statblock.monster := monster;
                      Statblock.plugin := plugin default;
                      Statblock.statblock := [];
                      Statblock.layout := layout;
                      Statblock.icons := true |} in
  (Monster.dice monster = None /\ Monster.render monster = None) /\
  Statblock.layout (Statblock.props (instance true))
  = Statblock.layout (Statblock.props (instance false)) /\
  Statblock.canDice (Statblock.consts (instance true)) = true /\
  Statblock.canDice (Statblock.consts (instance false)) = false /\
  Statblock.canRender (Statblock.consts (instance true)) = true /\
  Statblock.canRender (Statblock.consts (instance false)) = false.
Proof. repeat split. Qed.

(** ** Recomputing the columns *)

Lemma recompute_bounds (width z : Z) (M : number) :
  0 < z -> Resolution.positive M = true ->
  let x := Math_min (Math_max (Math_floor (div (of_Z width) (of_Z z)))
                              (Finite 1)) M in
  gt x (Finite 0) = true /\ le x M = true /\
  le (Finite 1) x = le (Finite 1) M.
Proof.
  intros Hz HM. rewrite (floor_div_of_Z _ _ Hz), max_of_Z_1.
  assert (Hk : (1 <= inject_Z (Z.max (width / z) 1))%Q).
  { change 1%Q with (inject_Z 1). rewrite <- Zle_Qle. lia. }
  revert Hk. generalize (Z.max (width / z) 1). intros k Hk.
  destruct (positive_cases M HM) as [-> | (q & -> & Hq)];
    unfold of_Z, Math_min, gt, lt, le; simpl.
  - repeat split; qbool; lra.
  - destruct (Qle_bool (inject_Z k) q) eqn:E; simpl; qbool.
    + repeat split; qbool; try lra.
      transitivity true; [ | symmetry ]; qbool; lra.
    + repeat split; qbool; try lra.
Qed.

Lemma positive_in_range (M : number) :
  Resolution.positive M = true ->
  gt M (Finite 0) = true /\ le M M = true.
Proof.
  intro H. destruct (positive_cases M H) as [-> | (q & -> & Hq)].
  - split; reflexivity.
  - unfold gt, lt, le. split; qbool; lra.
Qed.

(** ** The life of an instance *)

Import Statblock.

Arguments div : simpl never.
Arguments Math_floor : simpl never.
Arguments Math_max : simpl never.
Arguments Math_min : simpl never.

Lemma mark_ready (c : t) :
  (if negb (ready c) then set_ready true c else c) = set_ready true c.
Proof. destruct c as [? ? ? ? [ | ] ? ? ?]; reflexivity. Qed.

(** What the debounced callback does when the timer runs out. *)
Lemma step_elapse (clientWidth : option Z) (c : t) :
  pending c = true -> reads clientWidth c = true ->
  step (Elapse clientWidth) c =
  Some (if forced c then
          set_ready true
            (disconnect (set_columns (maxColumns (consts c))
                                     (set_pending false c)))
        else
          match clientWidth with
          | Some width =>
              set_ready true
                (set_columns (recomputed width c) (set_pending false c))
          | None => set_pending false c
          end).
Proof.
  intros P R. unfold step, onResize_callback, setColumns. rewrite P, R.
  change (forced (set_pending false c)) with (forced c). simpl.
  destruct (forced c).
  - now rewrite mark_ready.
  - destruct clientWidth as [width | ]; [ | reflexivity].
    now rewrite mark_ready.
Qed.

Lemma step_elapse_idle (clientWidth : option Z) (c : t) :
  pending c && reads clientWidth c = false ->
  step (Elapse clientWidth) c = None.
Proof. intro H. unfold step. now rewrite H. Qed.

Lemma reads_mounted (width : Z) (c : t) :
  phase c = Mounted -> reads (Some width) c = true.
Proof. intro M. unfold reads. now rewrite M. Qed.

Ltac elapse_cases c clientWidth H :=
  let P := fresh "Hpending" in
  let R := fresh "Hreads" in
  destruct (pending c) eqn:P;
  [ destruct (reads clientWidth c) eqn:R;
    [ rewrite (step_elapse clientWidth c P R) in H;
      destruct (forced c) eqn:?; [ | destruct clientWidth as [?width | ] ]
    | rewrite (step_elapse_idle clientWidth c) in H;
      [ discriminate H | now rewrite P, R ] ]
  | rewrite (step_elapse_idle clientWidth c) in H;
    [ discriminate H | now rewrite P ] ];
  injection H as <-.

Ltac step_cases e c H :=
  destruct e as [ | | ?clientWidth | ?m | ?l | ];
  [ unfold step in H; destruct (phase c) eqn:?; try discriminate H;
    injection H as <-
  | unfold step in H; destruct (observing c) eqn:?; try discriminate H;
    injection H as <-
  | elapse_cases c clientWidth H
  | unfold step in H; destruct (alive c) eqn:?; try discriminate H;
    injection H as <-
  | unfold step in H; destruct (alive c) eqn:?; try discriminate H;
    injection H as <-
  | unfold step in H; destruct (alive c) eqn:?; try discriminate H;
    injection H as <- ].

Lemma init_resolved (p : Props) : resolved (init p).
Proof.
  split; simpl.
  - apply maxColumns_positive.
  - apply columnWidth_pos_int.
Qed.

Lemma init_columns_in_range (p : Props) : columns_in_range (init p).
Proof.
  destruct (positive_in_range _ (maxColumns_positive (monster p) (layout p)))
    as [Hpos Hle].
  repeat split; simpl; assumption.
Qed.

Lemma step_consts (e : Event) (c c' : t) :
  step e c = Some c' -> consts c' = consts c.
Proof. intro H. step_cases e c H; reflexivity. Qed.

Lemma run_consts (es : list Event) (c : t) : consts (run es c) = consts c.
Proof.
  revert c. induction es as [ | e es IH]; intro c; simpl; [reflexivity | ].
  rewrite IH. destruct (step e c) as [c' | ] eqn:E; simpl; [ | reflexivity].
  now apply step_consts with e.
Qed.

Lemma step_columns_in_range (e : Event) (c c' : t) :
  resolved c -> columns_in_range c -> step e c = Some c' ->
  columns_in_range c'.
Proof.
  intros [Hmax (z & Hz & Hw)] Hc H.
  destruct (positive_in_range _ Hmax) as [Hpos Hle].
  step_cases e c H; unfold columns_in_range; simpl; try exact Hc.
  - repeat split; assumption.
  - unfold recomputed. rewrite Hw. now apply recompute_bounds.
Qed.

Lemma step_resolved (e : Event) (c c' : t) :
  resolved c -> step e c = Some c' -> resolved c'.
Proof.
  unfold resolved. intros H E. now rewrite (step_consts e c c' E).
Qed.

Lemma run_in_range (es : list Event) (c : t) :
  resolved c -> columns_in_range c ->
  resolved (run es c) /\ columns_in_range (run es c).
Proof.
  revert c. induction es as [ | e es IH]; intros c Hr Hc; simpl.
  - now split.
  - destruct (step e c) as [c' | ] eqn:E; simpl.
    + apply IH.
      * now apply step_resolved with e c.
      * now apply step_columns_in_range with e c.
    + now apply IH.
Qed.

Lemma run_app (es1 es2 : list Event) (c : t) :
  run (es1 ++ es2)%list c = run es2 (run es1 c).
Proof.
  revert c. induction es1 as [ | e es1 IH]; intro c; simpl; [reflexivity | ].
  apply IH.
Qed.

Lemma run_invariant (I : t -> Prop) :
  (forall e c c', I c -> step e c = Some c' -> I c') ->
  forall es c, I c -> I (run es c).
Proof.
  intros Hstep es. induction es as [ | e es IH]; intros c Hc; simpl.
  - exact Hc.
  - apply IH. destruct (step e c) as [c' | ] eqn:E; simpl; [ | exact Hc].
    now apply Hstep with e c.
Qed.

(** What holds of an instance by its phase: before [onMount] nothing has
    been measured, and after [onDestroy] the observer is off. *)
Lemma step_lifecycle (e : Event) (c c' : t) :
  (phase c = Created ->
   ready c = false /\ pending c = false /\ observing c = false /\
   columns c = maxColumns (consts c)) /\
  (phase c = Destroyed -> observing c = false) ->
  step e c = Some c' ->
  (phase c' = Created ->
   ready c' = false /\ pending c' = false /\ observing c' = false /\
   columns c' = maxColumns (consts c')) /\
  (phase c' = Destroyed -> observing c' = false).
Proof.
  intros [IC ID] H.
  step_cases e c H; simpl; split; auto; try discriminate; try congruence.
  all: try (intro D; specialize (ID D); congruence).
  all: intro D; destruct (IC D) as (_ & P & O & _); congruence.
Qed.

Lemma run_lifecycle (p : Props) (es : list Event) :
  let c := run es (init p) in
  (phase c = Created ->
   ready c = false /\ pending c = false /\ observing c = false /\
   columns c = maxColumns (consts c)) /\
  (phase c = Destroyed -> observing c = false).
Proof.
  apply (run_invariant
           (fun c =>
              (phase c = Created ->
               ready c = false /\ pending c = false /\ observing c = false /\
               columns c = maxColumns (consts c)) /\
              (phase c = Destroyed -> observing c = false))).
  - intros e c c' I H. now apply step_lifecycle with e c.
  - split; [ | discriminate]. intros _. repeat split.
Qed.

Lemma observing_mounted (p : Props) (es : list Event) :
  observing (run es (init p)) = true -> phase (run es (init p)) = Mounted.
Proof.
  destruct (run_lifecycle p es) as [IC ID]. cbv zeta in IC, ID. intro O.
  destruct (phase (run es (init p))) eqn:E; trivial.
  - destruct (IC eq_refl) as (_ & _ & O' & _). congruence.
  - specialize (ID eq_refl). congruence.
Qed.

(** A maximum resolved from whole numbers is at least 1. *)
Lemma maxColumns_whole (monster : Monster.t) (layout : Layout.t) (z : Z) :
  Number (Monster.columns monster ?? Layout.columns layout) = of_Z z ->
  le (Finite 1) (Resolution.maxColumns monster layout) = true.
Proof.
  intro H. unfold Resolution.maxColumns. rewrite H.
  fold (Resolution.positive (of_Z z)). rewrite positive_of_Z.
  destruct (0 <? z) eqn:E; [ | reflexivity].
  apply Z.ltb_lt in E. unfold le, of_Z. qbool.
  change 1%Q with (inject_Z 1). rewrite <- Zle_Qle. lia.
Qed.

(** C9, as the code has it.  In every state an instance reaches, the
    maximum column count is a positive number (so above 0, though not
    necessarily 1 or more); it is at least 1 when the configured count,
    [monster.columns ?? layout.columns], is a whole number; the column
    count is above 0 and at most the maximum, and it is at least 1
    exactly when the maximum is.  At creation the column count is the
    maximum. *)
Theorem columns_stay_in_range (p : Props) (es : list Event) :
  let c := run es (init p) in
  columns (init p) = maxColumns (consts (init p)) /\
  Resolution.positive (maxColumns (consts c)) = true /\
  (forall z : Z,
     Number (Monster.columns (monster p) ?? Layout.columns (layout p))
     = of_Z z ->
     le (Finite 1) (maxColumns (consts c)) = true) /\
  gt (columns c) (Finite 0) = true /\
  le (columns c) (maxColumns (consts c)) = true /\
  le (Finite 1) (columns c) = le (Finite 1) (maxColumns (consts c)).
Proof.
  destruct (run_in_range es (init p) (init_resolved p)
                         (init_columns_in_range p))
    as [[Hmax _] (Hpos & Hle & Hone)].
  cbv zeta. repeat split; try assumption.
  intros z Hz. rewrite run_consts. simpl. now apply maxColumns_whole with z.
Qed.

(** C9, as stated, fails: a creature with [columns: 0.5] resolves a
    maximum of 0.5, below 1, and the column count after a measurement
    of a 1000 wide container is 0.5 as well. *)
Lemma half_column_below_one :
  let p := Sample.props (Sample.monster (Some (Finite 0.5)) None None)
                        (Sample.layout (Some (Finite 2)) None None) in
  let c := run [Mount; Elapse (Some 1000)] (init p) in
  maxColumns (consts c) = Finite 0.5 /\
  le (Finite 1) (maxColumns (consts c)) = false /\
  columns c = Finite 0.5 /\
  le (Finite 1) (columns c) = false.
Proof. repeat split. Qed.

(** ** Force-columns *)

(** C3, as the code has it.  Whenever [monster.forceColumns ??
    layout.forceColumns] is true (the creature's setting when it has
    one, else the layout's), [setColumns] sets the column count to the
    maximum whatever the container measures, even with no container to
    measure, and disconnects the observer; so does the debounced
    callback whenever its timer runs out. *)
Theorem forced_columns_pinned (c : t) (clientWidth : option Z) :
  forced c = true ->
  (exists c', setColumns clientWidth c = Some c' /\
              columns c' = maxColumns (consts c) /\
              observing c' = false) /\
  (pending c = true -> reads clientWidth c = true ->
   exists c', step (Elapse clientWidth) c = Some c' /\
              columns c' = maxColumns (consts c) /\
              observing c' = false).
Proof.
  intro F. split.
  - unfold setColumns. rewrite F. eexists. repeat split.
  - intros P R. rewrite (step_elapse clientWidth c P R), F.
    eexists. repeat split.
Qed.

(** A forced creature with 3 columns, mounted, in a container 100 wide,
    narrower than one 400 wide column. *)
Lemma forced_columns_pinned_narrow :
  let c := onMount (init Sample.pinned_goblin) in
  forced c = true /\
  (exists c', setColumns (Some 100) c = Some c' /\
              columns c' = maxColumns (consts c) /\
              observing c' = false) /\
  (exists c', step (Elapse (Some 100)) c = Some c' /\
              columns c' = maxColumns (consts c) /\
              observing c' = false).
Proof.
  split; [reflexivity | ]. split.
  - exact (proj1 (forced_columns_pinned
                    (onMount (init Sample.pinned_goblin)) (Some 100) eq_refl)).
  - exact (proj2 (forced_columns_pinned
                    (onMount (init Sample.pinned_goblin)) (Some 100) eq_refl)
                 eq_refl eq_refl).
Defined.

Example pinned_goblin_narrow :
  columns (run [Mount; Elapse (Some 100)] (init Sample.pinned_goblin))
  = Finite 3.
Proof. reflexivity. Qed.

(** C3, as stated, fails: the layout sets force-columns, the creature
    sets it to false; the columns are recomputed from the width (1, not
    the maximum 3) and the observer keeps observing. *)
Lemma layout_force_overridden_by_creature :
  let p := Sample.props (Sample.monster (Some (Finite 3)) None (Some false))
                        (Sample.layout (Some (Finite 2)) None (Some true)) in
  let c := onMount (init p) in
  set_by_either c = true /\
  exists c', setColumns (Some 100) c = Some c' /\
             maxColumns (consts c') = Finite 3 /\
             columns c' = Finite 1 /\
             observing c' = true.
Proof. split; [reflexivity | ]. eexists. repeat split. Qed.

(** ** Width-based reflow *)

Lemma clamp_min_max (x lo hi : number) :
  isNaN x = false -> isNaN lo = false -> isNaN hi = false ->
  Math_min (Math_max x lo) hi = clamp x lo hi.
Proof.
  destruct x as [ | | | x], lo as [ | | | lo], hi as [ | | | hi];
    try discriminate; intros _ _ _;
    unfold clamp, Math_min, Math_max; simpl;
    repeat match goal with
           | |- context [Qle_bool ?a ?b] => destruct (Qle_bool a b)
           end; reflexivity.
Qed.

Lemma positive_not_NaN (x : number) :
  Resolution.positive x = true -> isNaN x = false.
Proof. destruct x; simpl; trivial. discriminate. Qed.

(** C4.  In every state an instance reaches with force-columns not in
    effect: when the observer, which is observing, delivers a resize,
    the debounced callback runs once the timer is out and sets the
    column count to clamp(floor(width / columnWidth), 1, maxColumns)
    for the client width it reads; and so does every run of the
    callback on a mounted instance, the one [onMount] asks for
    included. *)
Theorem resize_recomputes_columns (p : Props) (es : list Event) (width : Z) :
  let c := run es (init p) in
  forced c = false ->
  (observing c = true ->
   exists c1 c2,
     step Resize c = Some c1 /\
     step (Elapse (Some width)) c1 = Some c2 /\
     columns c2 =
     clamp (Math_floor (div (of_Z width) (columnWidth (consts c))))
           (Finite 1) (maxColumns (consts c))) /\
  (phase c = Mounted -> pending c = true ->
   exists c', step (Elapse (Some width)) c = Some c' /\
              columns c' =
              clamp (Math_floor (div (of_Z width) (columnWidth (consts c))))
                    (Finite 1) (maxColumns (consts c))).
Proof.
  cbv zeta. intro F.
  destruct (run_in_range es (init p) (init_resolved p)
                         (init_columns_in_range p))
    as [[Hmax (z & Hz & Hw)] _].
  assert (C : recomputed width (run es (init p)) =
              clamp (Math_floor (div (of_Z width)
                                     (columnWidth (consts (run es (init p))))))
                    (Finite 1) (maxColumns (consts (run es (init p))))).
  { unfold recomputed. rewrite Hw, (floor_div_of_Z _ _ Hz).
    apply clamp_min_max; trivial. now apply positive_not_NaN. }
  split.
  - intro O. pose proof (observing_mounted p es O) as M.
    exists (onResize (run es (init p))). eexists. split.
    + unfold step. now rewrite O.
    + rewrite (step_elapse (Some width) (onResize (run es (init p))) eq_refl
                           (reads_mounted width _ M)).
      change (forced (onResize (run es (init p))))
        with (forced (run es (init p))). rewrite F.
      split; [reflexivity | exact C].
  - intros M P.
    rewrite (step_elapse (Some width) _ P (reads_mounted width _ M)), F.
    eexists. split; [reflexivity | exact C].
Qed.

(** A creature with 3 columns of 400, mounted and measured once: the
    timer is idle; then the observer delivers a resize and the callback
    reads a width of 1000. *)
Lemma resize_recomputes_columns_goblin :
  let c := run [Mount; Elapse (Some 2000)] (init Sample.goblin) in
  (forced c = false /\ observing c = true /\ pending c = false) /\
  exists c1 c2,
    step Resize c = Some c1 /\
    step (Elapse (Some 1000)) c1 = Some c2 /\
    columns c2 =
    clamp (Math_floor (div (of_Z 1000) (columnWidth (consts c))))
          (Finite 1) (maxColumns (consts c)).
Proof.
  split; [repeat split | ].
  exact (proj1 (resize_recomputes_columns
                  Sample.goblin [Mount; Elapse (Some 2000)] 1000 eq_refl)
               eq_refl).
Defined.

Example reflow_1000_wide :
  columns (run [Mount; Elapse (Some 1000)]
               (init (Sample.props (Sample.monster (Some (Finite 3)) None None)
                                   (Sample.layout None None None))))
  = Finite 2.
Proof. reflexivity. Qed.

Example reflow_100_wide :
  columns (run [Mount; Elapse (Some 1000); Resize; Elapse (Some 100)]
               (init (Sample.props (Sample.monster (Some (Finite 3)) None None)
                                   (Sample.layout None None None))))
  = Finite 1.
Proof. reflexivity. Qed.

(** ** The ready flag *)

Lemma step_ready_stays (e : Event) (c c' : t) :
  step e c = Some c' -> ready c = true -> ready c' = true.
Proof. intros H R. step_cases e c H; simpl; trivial. Qed.

Lemma run_ready_stays (es : list Event) (c : t) :
  ready c = true -> ready (run es c) = true.
Proof.
  revert c. induction es as [ | e es IH]; intros c R; simpl; [exact R | ].
  apply IH. destruct (step e c) as [c' | ] eqn:E; simpl; [ | exact R].
  now apply step_ready_stays with e c.
Qed.

Lemma step_ready_set (e : Event) (c c' : t) :
  step e c = Some c' -> ready c = false -> ready c' = true ->
  exists clientWidth, e = Elapse clientWidth.
Proof.
  intros H R R'. step_cases e c H; simpl in R'; try congruence; eauto.
Qed.

Lemma step_elapse_ready (clientWidth : option Z) (c c' : t) :
  phase c = Mounted -> step (Elapse clientWidth) c = Some c' ->
  ready c' = true.
Proof.
  intros M H. elapse_cases c clientWidth H; try reflexivity.
  unfold reads in Hreads. rewrite M in Hreads. discriminate Hreads.
Qed.

(** C6.  [ready] is false when the instance is created, and mounting
    starts the timer of the first measurement.  In every state the
    instance reaches: the container has no content while [ready] is
    false; only the debounced callback turns [ready] from false to
    true; on a mounted instance with a resize waiting the callback does
    run when the timer runs out, and whenever it runs on a mounted
    instance it leaves [ready] true; and once true, [ready] is true
    after every further run of events. *)
Theorem ready_after_first_measurement
  (slugifyLayoutForCss : string -> option string -> string)
  (p : Props) (es : list Event) :
  let c := run es (init p) in
  ready (init p) = false /\
  (exists c1, step Mount (init p) = Some c1 /\
              pending c1 = true /\ ready c1 = false) /\
  (ready c = false -> template slugifyLayoutForCss c = []) /\
  (forall e c', step e c = Some c' -> ready c = false -> ready c' = true ->
                exists clientWidth, e = Elapse clientWidth) /\
  (forall width, phase c = Mounted -> pending c = true ->
                 exists c', step (Elapse (Some width)) c = Some c') /\
  (forall clientWidth c', phase c = Mounted ->
                          step (Elapse clientWidth) c = Some c' ->
                          ready c' = true) /\
  (ready c = true -> forall es', ready (run es' c) = true).
Proof.
  cbv zeta. repeat split.
  - eexists. repeat split.
  - intro R. unfold template. now rewrite R.
  - intros e c'. apply step_ready_set.
  - intros width M P.
    rewrite (step_elapse (Some width) _ P (reads_mounted width _ M)).
    eexists. reflexivity.
  - intros clientWidth c' M. now apply step_elapse_ready.
  - intros R es'. now apply run_ready_stays.
Qed.

(** ** Destruction *)

Lemma step_destroyed_quiet (e : Event) (c c' : t) :
  step e c = Some c' ->
  (phase c = Destroyed -> observing c = false) ->
  (phase c = Destroyed -> phase c' = Destroyed) /\
  (phase c' = Destroyed -> observing c' = false).
Proof.
  intros H I. step_cases e c H; simpl; split; auto; try discriminate;
    try congruence.
  intro D. specialize (I D). congruence.
Qed.

Lemma run_destroyed_quiet (es : list Event) (c : t) :
  phase c = Destroyed -> observing c = false ->
  phase (run es c) = Destroyed /\ observing (run es c) = false.
Proof.
  revert c. induction es as [ | e es IH]; intros c D O; simpl; [now split | ].
  destruct (step e c) as [c' | ] eqn:E; simpl; [ | now apply IH].
  destruct (step_destroyed_quiet e c c' E (fun _ => O)) as [D' O'].
  apply IH; auto.
Qed.

Lemma run_destroyed_observer (es : list Event) (c : t) :
  (phase c = Destroyed -> observing c = false) ->
  phase (run es c) = Destroyed -> observing (run es c) = false.
Proof.
  revert c. induction es as [ | e es IH]; intros c I; simpl; [exact I | ].
  destruct (step e c) as [c' | ] eqn:E; simpl; [ | now apply IH].
  apply IH. now destruct (step_destroyed_quiet e c c' E I).
Qed.

(** The timer of a resize that was waiting when the component was
    destroyed still runs out: the callback runs once more. *)
Example timer_outlives_destroy :
  let p := Sample.props (Sample.monster (Some (Finite 3)) None None)
                        (Sample.layout None None None) in
  let d := run [Mount; Destroy] (init p) in
  observing d = false /\ pending d = true /\
  step Resize d = None /\
  step (Elapse None) d = Some (set_pending false d) /\
  columns (run [Elapse (Some 0)] d) = Finite 1.
Proof. repeat split. Qed.

(** The part of the teardown that holds.  Whatever happened before,
    once the component is destroyed the observer is disconnected, and
    after any further events it is still disconnected and delivers no
    resize: the [Resize] event cannot happen. *)
Theorem destroyed_observer_delivers_nothing
  (p : Props) (before after : list Event) :
  let d := run (before ++ [Destroy]) (init p) in
  let c := run after d in
  phase d = Destroyed /\ observing d = false /\
  observing c = false /\ step Resize c = None.
Proof.
  cbv zeta. rewrite run_app.
  assert (I : phase (run before (init p)) = Destroyed ->
              observing (run before (init p)) = false).
  { apply run_destroyed_observer. discriminate. }
  assert (D : phase (run [Destroy] (run before (init p))) = Destroyed /\
              observing (run [Destroy] (run before (init p))) = false).
  { simpl. unfold alive.
    destruct (phase (run before (init p))) eqn:E; simpl; auto. }
  destruct D as [D O].
  destruct (run_destroyed_quiet after _ D O) as [_ O'].
  repeat split; trivial. unfold step. now rewrite O'.
Qed.

(** C8 at the input where the code departs from it: a component that
    is destroyed while the timer [onMount] started is still running.
    [onDestroy] disconnects the observer, which delivers nothing more,
    but it does not cancel the timer: the callback runs after the
    component is gone, reads a width (0 of the detached container, say)
    and sets [ready]. *)
Theorem callback_runs_after_destroy (p : Props) (width : Z) :
  let d := run [Mount; Destroy] (init p) in
  (phase d = Destroyed /\ observing d = false /\ step Resize d = None) /\
  (ready d = false /\ pending d = true) /\
  exists c', step (Elapse (Some width)) d = Some c' /\
             ready c' = true /\ pending c' = false.
Proof.
  cbv zeta. split; [repeat split | ]. split; [repeat split | ].
  rewrite (step_elapse (Some width) (run [Mount; Destroy] (init p))
                       eq_refl eq_refl).
  eexists. split; [reflexivity | ].
  destruct (forced (run [Mount; Destroy] (init p))); split; reflexivity.
Qed.

(** ** The constants and the props *)

(** C10.  In every state an instance reaches, the four constants are
    those resolved from the creature, layout and plugin it was created
    with; replacing the creature of a live instance sets the store and
    the prop to the new creature and leaves the constants as they
    were. *)
Theorem constants_fixed_at_creation
  (p : Props) (es : list Event) (m : Monster.t) :
  let c := run es (init p) in
  maxColumns (consts c) = Resolution.maxColumns (monster p) (layout p) /\
  columnWidth (consts c) = Resolution.columnWidth (monster p) (layout p) /\
  canDice (consts c) = Resolution.canDice (monster p) (plugin p) /\
  canRender (consts c) = Resolution.canRender (monster p) (plugin p) /\
  (alive c = true ->
   exists c', step (SetMonster m) c = Some c' /\
              monsterStore c' = m /\ monster (props c') = m /\
              consts c' = consts c).
Proof.
  cbv zeta. rewrite run_consts. repeat split.
  intro A. unfold step. rewrite A. eexists.
  repeat split; simpl; apply run_consts.
Qed.

Example constants_go_stale :
  let p := Sample.props (Sample.monster (Some (Finite 3)) None None)
                        (Sample.layout None None None) in
  let c := run [Mount; Elapse (Some 2000);
                SetMonster (Sample.monster (Some (Finite 4)) None None);
                Resize; Elapse (Some 2000)] (init p) in
  Monster.columns (monsterStore c) = Some (Finite 4) /\
  maxColumns (consts c) = Finite 3 /\ columns c = Finite 3.
Proof. repeat split. Qed.

(** ** Determinism *)

Lemma step_quiet_props (e : Event) (c c' : t) :
  quiet [e] = true -> step e c = Some c' -> props c' = props c.
Proof.
  intros Q H. step_cases e c H; try discriminate Q; try reflexivity;
    now destruct (forced _).
Qed.

Lemma run_quiet_props (es : list Event) (c : t) :
  quiet es = true -> props (run es c) = props c.
Proof.
  revert c. induction es as [ | e es IH]; intros c Q; [reflexivity | ].
  simpl in Q. apply andb_true_iff in Q. destruct Q as [Qe Qes]. simpl.
  rewrite (IH _ Qes). destruct (step e c) as [c' | ] eqn:E; [ | reflexivity].
  apply step_quiet_props with e; [ | exact E].
  simpl. now rewrite Qe.
Qed.

Section Registry.

Variable slugifyLayoutForCss : string -> option string -> string.

(** The classes of a block depend on the plugin through the layouts it
    has registered only. *)
Lemma block_classes_registry (plugin1 plugin2 : Plugin.t) :
  Plugin.getAllLayouts plugin1 = Plugin.getAllLayouts plugin2 ->
  forall block,
    block_classes slugifyLayoutForCss plugin1 block =
    block_classes slugifyLayoutForCss plugin2 block.
Proof.
  intro H. fix IH 1. intros [type layout nested]. simpl.
  unfold find_layout. rewrite H. f_equal.
  destruct nested as [blocks | ]; [ | reflexivity].
  induction blocks as [ | b blocks IHblocks]; simpl; [reflexivity | ].
  now rewrite IH, IHblocks.
Qed.

Lemma classes_inputs (p1 p2 : Props) :
  Monster.name (monster p1) = Monster.name (monster p2) ->
  Layout.name (layout p1) = Layout.name (layout p2) ->
  statblock p1 = statblock p2 ->
  Plugin.getAllLayouts (plugin p1) = Plugin.getAllLayouts (plugin p2) ->
  classes slugifyLayoutForCss p1 = classes slugifyLayoutForCss p2.
Proof.
  intros Hn Hl Hs Hr. unfold classes, name, layoutName, getNestedLayouts.
  rewrite Hn, Hl, Hs.
  now rewrite (flat_map_ext _ _ (block_classes_registry _ _ Hr)).
Qed.

End Registry.

(** C7.  Two instances created with the same creature, the same layout,
    the same blocks and a plugin with the same registered layouts, and
    run through any events that replace no prop, agree on the resolved
    [maxColumns] and [columnWidth] and on the class list. *)
Theorem resolution_deterministic
  (slugifyLayoutForCss : string -> option string -> string)
  (p1 p2 : Props) (es1 es2 : list Event) :
  monster p1 = monster p2 -> layout p1 = layout p2 ->
  statblock p1 = statblock p2 ->
  Plugin.getAllLayouts (plugin p1) = Plugin.getAllLayouts (plugin p2) ->
  quiet es1 = true -> quiet es2 = true ->
  let c1 := run es1 (init p1) in
  let c2 := run es2 (init p2) in
  maxColumns (consts c1) = maxColumns (consts c2) /\
  columnWidth (consts c1) = columnWidth (consts c2) /\
  classes slugifyLayoutForCss (props c1) =
  classes slugifyLayoutForCss (props c2).
Proof.
  intros Hm Hl Hs Hr Q1 Q2. cbv zeta.
  rewrite !run_consts, (run_quiet_props _ _ Q1), (run_quiet_props _ _ Q2).
  simpl. rewrite Hm, Hl. repeat split.
  apply classes_inputs; simpl; congruence.
Qed.

(** Two instances of the same creature and layout, one measured once,
    the other resized twice and destroyed, under plugins that differ in
    the dice roller. *)
Lemma resolution_deterministic_sample :
  let c1 := run [Mount; Elapse (Some 1000)] (init Sample.goblin) in
  let c2 := run [Mount; Elapse (Some 1000); Resize; Elapse (Some 300); Destroy]
                (init Sample.plain_goblin) in
  maxColumns (consts c1) = maxColumns (consts c2) /\
  columnWidth (consts c1) = columnWidth (consts c2) /\
  classes Sample.slug (props c1) = classes Sample.slug (props c2).
Proof.
  exact (resolution_deterministic
           Sample.slug Sample.goblin Sample.plain_goblin
           [Mount; Elapse (Some 1000)]
           [Mount; Elapse (Some 1000); Resize; Elapse (Some 300); Destroy]
           eq_refl eq_refl eq_refl eq_refl eq_refl eq_refl).
Defined.

Example goblin_classes :
  classes Sample.slug Sample.goblin
  = ["Goblin"; "Basic 5e Layout"; "Basic 5e Layout"].
Proof. reflexivity. Qed.

(** ** Invariants of a run *)

(** X1.  In every state an instance reaches, [monsterStore] holds the
    creature of the [monster] prop. *)
Theorem store_follows_prop (p : Props) (es : list Event) :
  monsterStore (run es (init p)) = monster (props (run es (init p))).
Proof.
  apply (run_invariant (fun c => monsterStore c = monster (props c)));
    [ | reflexivity].
  intros e c c' I H. step_cases e c H; simpl; trivial.
Qed.

(** X2.  In every state an instance reaches: as long as [onMount] has
    not run, nothing is shown, no timer runs, and the column count is
    still the maximum; the observer observes only while the component
    is mounted; a timer runs only once the component has been
    mounted. *)
Theorem nothing_before_mount (p : Props) (es : list Event) :
  let c := run es (init p) in
  (phase c = Created ->
   ready c = false /\ pending c = false /\
   columns c = maxColumns (consts c)) /\
  (observing c = true -> phase c = Mounted) /\
  (pending c = true -> phase c <> Created).
Proof.
  cbv zeta. destruct (run_lifecycle p es) as [IC ID]. repeat split.
  - now apply IC.
  - now apply IC.
  - now apply IC.
  - intro O. destruct (phase (run es (init p))) eqn:E; trivial.
    + destruct (IC eq_refl) as (_ & _ & O' & _). congruence.
    + specialize (ID eq_refl). congruence.
  - intros P C. destruct (IC C) as (_ & P' & _). congruence.
Qed.

(** ** Bursts of resizes and spent timers *)

Lemma run_resizes (n : nat) (c : t) :
  run (repeat Resize (S n)) c = or_else (step Resize c) c.
Proof.
  revert c. induction n as [ | n IH]; intro c.
  - reflexivity.
  - change (repeat Resize (S (S n))) with (Resize :: repeat Resize (S n)).
    cbn [run]. rewrite IH. unfold step.
    destruct (observing c) eqn:O; simpl; now rewrite O.
Qed.

Lemma elapse_twice (w w' : Z) (c : t) :
  run [Elapse (Some w); Elapse (Some w')] c = run [Elapse (Some w)] c.
Proof.
  cbn [run].
  destruct (step (Elapse (Some w)) c) as [c1 | ] eqn:H; cbn [or_else].
  - assert (P : pending c1 = false).
    { elapse_cases c (Some w) H; reflexivity. }
    now rewrite (step_elapse_idle (Some w') c1) by now rewrite P.
  - assert (N : pending c && reads (Some w) c = false).
    { destruct (pending c) eqn:P; [ | reflexivity].
      destruct (reads (Some w) c) eqn:R; [ | reflexivity].
      rewrite (step_elapse (Some w) c P R) in H. discriminate H. }
    now rewrite (step_elapse_idle (Some w') c) by exact N.
Qed.

(** X4.  A burst of resize deliveries is debounced into one
    recomputation.  In every state an instance reaches in which the
    observer observes, after any positive number of deliveries the
    timer is running and, when it is out, the callback runs: the column
    count becomes what [setColumns] computes from the width read and
    [ready] is true.  Then no timer is left: a second expiry cannot
    happen, and the run with both expiries ends in the state the one
    callback left. *)
Theorem burst_is_one_recomputation
  (p : Props) (es : list Event) (n : nat) (w w' : Z) :
  let c := run es (init p) in
  observing c = true ->
  exists c1,
    step (Elapse (Some w)) (run (repeat Resize (S n)) c) = Some c1 /\
    option_map columns (setColumns (Some w) c) = Some (columns c1) /\
    ready c1 = true /\
    step (Elapse (Some w')) c1 = None /\
    run (repeat Resize (S n) ++ [Elapse (Some w); Elapse (Some w')])%list c
    = c1.
Proof.
  cbv zeta. intro O. pose proof (observing_mounted p es O) as M.
  set (c := run es (init p)) in *.
  assert (R : run (repeat Resize (S n)) c = onResize c).
  { rewrite run_resizes. unfold step. now rewrite O. }
  assert (E : exists c1,
             step (Elapse (Some w)) (onResize c) = Some c1 /\
             option_map columns (setColumns (Some w) c) = Some (columns c1) /\
             ready c1 = true /\ pending c1 = false).
  { rewrite (step_elapse (Some w) (onResize c) eq_refl (reads_mounted w _ M)).
    change (forced (onResize c)) with (forced c). unfold setColumns.
    destruct (forced c); eexists; repeat split. }
  destruct E as (c1 & S1 & C1 & R1 & P1).
  assert (S2 : step (Elapse (Some w')) c1 = None).
  { apply step_elapse_idle. now rewrite P1. }
  exists c1. rewrite R. repeat split; trivial.
  rewrite run_app, R. cbn [run]. rewrite S1. cbn [or_else]. now rewrite S2.
Qed.

(** A mounted creature, measured once, so that no timer is running;
    then three deliveries and two expiries. *)
Lemma burst_is_one_recomputation_goblin :
  let c := run [Mount; Elapse (Some 2000)] (init Sample.goblin) in
  (observing c = true /\ pending c = false) /\
  exists c1,
    step (Elapse (Some 500)) (run (repeat Resize 3) c) = Some c1 /\
    option_map columns (setColumns (Some 500) c) = Some (columns c1) /\
    ready c1 = true /\
    step (Elapse (Some 700)) c1 = None /\
    run (repeat Resize 3 ++ [Elapse (Some 500); Elapse (Some 700)])%list c
    = c1.
Proof.
  split; [split; reflexivity | ].
  exact (burst_is_one_recomputation
           Sample.goblin [Mount; Elapse (Some 2000)] 2 500 700 eq_refl).
Defined.

(** X5.  A callback that finds no container (the read of its client
    width throws) changes nothing but the timer, unless force-columns
    is in effect: the column count, [ready], the observer and the props
    stay as they were, and the timer is spent. *)
Theorem callback_without_container (c c' : t) :
  forced c = false -> step (Elapse None) c = Some c' ->
  columns c' = columns c /\ ready c' = ready c /\
  observing c' = observing c /\ props c' = props c /\
  pending c' = false.
Proof.
  intros F H. elapse_cases c (@None Z) H; try congruence; repeat split.
Qed.

(** A timer left running by a mount that was destroyed at once: the
    callback finds no container. *)
Lemma callback_without_container_destroyed :
  let c := run [Mount; Destroy] (init Sample.goblin) in
  let c' := set_pending false c in
  (forced c = false /\ step (Elapse None) c = Some c') /\
  columns c' = columns c /\ ready c' = ready c /\
  observing c' = observing c /\ props c' = props c /\
  pending c' = false.
Proof.
  split; [split; reflexivity | ].
  exact (callback_without_container
           (run [Mount; Destroy] (init Sample.goblin))
           (set_pending false (run [Mount; Destroy] (init Sample.goblin)))
           eq_refl eq_refl).
Defined.

(** ** A forced measurement is the last one *)

Lemma step_settled (e : Event) (c c' : t) :
  pending c = false /\ observing c = false /\ phase c <> Created /\
  columns c = maxColumns (consts c) ->
  step e c = Some c' ->
  pending c' = false /\ observing c' = false /\ phase c' <> Created /\
  columns c' = maxColumns (consts c').
Proof.
  intros (P & O & C & M) H.
  step_cases e c H; simpl; try congruence; repeat split; trivial;
    discriminate.
Qed.

(** X6.  Once the callback has run with force-columns in effect, the
    column count stays at the maximum for good and the observer stays
    off, whatever follows: later resizes are not delivered, and
    replacing the creature or the layout by one without force-columns
    does not bring width-based reflow back. *)
Theorem forced_measurement_is_final
  (p : Props) (es es' : list Event) (clientWidth : option Z) (c' : t) :
  let c := run es (init p) in
  forced c = true -> step (Elapse clientWidth) c = Some c' ->
  columns (run es' c') = maxColumns (consts c) /\
  observing (run es' c') = false /\
  pending (run es' c') = false.
Proof.
  cbv zeta. intros F H.
  destruct (run_lifecycle p es) as [IC _]. cbv zeta in IC.
  assert (S : pending c' = false /\ observing c' = false /\
              phase c' <> Created /\ columns c' = maxColumns (consts c')).
  { elapse_cases (run es (init p)) clientWidth H; try discriminate F.
    repeat split; simpl.
    intro C. destruct (IC C) as (_ & P & _). congruence. }
  assert (K : consts c' = consts (run es (init p))).
  { now apply step_consts with (Elapse clientWidth). }
  pose proof (run_invariant _ step_settled es' c' S) as (P & O & _ & M).
  rewrite M, run_consts, K. repeat split; assumption.
Qed.

(** A forced creature is measured once; then it is replaced by one that
    switches force-columns off, the container is resized and a timer
    expires. *)
Lemma forced_measurement_is_final_sample :
  let c := run [Mount] (init Sample.pinned_goblin) in
  let c' := or_else (step (Elapse (Some 100)) c) c in
  let later := [SetMonster (Sample.monster (Some (Finite 3)) None (Some false));
                Resize; Elapse (Some 2000)] in
  (forced c = true /\ step (Elapse (Some 100)) c = Some c') /\
  columns (run later c') = maxColumns (consts c) /\
  observing (run later c') = false /\
  pending (run later c') = false.
Proof.
  split; [split; reflexivity | ].
  exact (forced_measurement_is_final
           Sample.pinned_goblin [Mount]
           [SetMonster (Sample.monster (Some (Finite 3)) None (Some false));
            Resize; Elapse (Some 2000)]
           (Some 100)
           (or_else (step (Elapse (Some 100))
                          (run [Mount] (init Sample.pinned_goblin)))
                    (run [Mount] (init Sample.pinned_goblin)))
           eq_refl eq_refl).
Defined.

(** ** Whole column counts *)

Lemma of_Z_inj (a b : Z) : of_Z a = of_Z b -> a = b.
Proof. unfold of_Z, inject_Z. intro H. now injection H. Qed.

Lemma min_of_Z (a b : Z) : Math_min (of_Z a) (of_Z b) = of_Z (Z.min a b).
Proof.
  unfold Math_min, of_Z, lt.
  destruct (Qle_bool (inject_Z a) (inject_Z b)) eqn:E; simpl; qbool.
  - rewrite <- Zle_Qle in E. now rewrite Z.min_l by lia.
  - rewrite <- Zlt_Qlt in E. now rewrite Z.min_r by lia.
Qed.

Lemma le_of_Z (a b : Z) : le (of_Z a) (of_Z b) = (a <=? b).
Proof.
  unfold le, of_Z. destruct (a <=? b) eqn:E.
  - apply Z.leb_le in E. qbool. now rewrite <- Zle_Qle.
  - apply Z.leb_gt in E. qbool. now rewrite <- Zlt_Qlt.
Qed.

(** With a whole width [z] and a whole maximum [M] the recomputed count
    is the whole number min(max(width div z, 1), M). *)
Lemma recomputed_whole (c : t) (width z M : Z) :
  0 < z -> columnWidth (consts c) = of_Z z ->
  maxColumns (consts c) = of_Z M ->
  recomputed width c = of_Z (Z.min (Z.max (width / z) 1) M).
Proof.
  intros Hz Hw HM. unfold recomputed.
  now rewrite Hw, HM, (floor_div_of_Z _ _ Hz), max_of_Z_1, min_of_Z.
Qed.

Lemma setColumns_unforced (c : t) (width : Z) :
  forced c = false ->
  setColumns (Some width) c = Some (set_columns (recomputed width c) c).
Proof. intro F. unfold setColumns. now rewrite F. Qed.

Lemma run_resolved (p : Props) (es : list Event) :
  resolved (run es (init p)).
Proof.
  apply (run_in_range es (init p) (init_resolved p) (init_columns_in_range p)).
Qed.

Lemma step_whole (M : Z) (e : Event) (c c' : t) :
  resolved c /\ maxColumns (consts c) = of_Z M /\
  (exists k, 1 <= k <= M /\ columns c = of_Z k) ->
  step e c = Some c' ->
  resolved c' /\ maxColumns (consts c') = of_Z M /\
  (exists k, 1 <= k <= M /\ columns c' = of_Z k).
Proof.
  intros (R & HM & K) H.
  assert (R' : resolved c') by now apply step_resolved with e c.
  assert (HM' : maxColumns (consts c') = of_Z M)
    by now rewrite (step_consts e c c' H).
  split; [exact R' | split; [exact HM' | ]]. clear R' HM'.
  assert (M1 : 1 <= M).
  { destruct R as [Hpos _]. rewrite HM, positive_of_Z in Hpos.
    apply Z.ltb_lt in Hpos. lia. }
  destruct R as [_ (z & Hz & Hw)].
  step_cases e c H; simpl; trivial.
  - exists M. split; [lia | assumption].
  - exists (Z.min (Z.max (width / z) 1) M). split; [lia | ].
    now apply recomputed_whole.
Qed.

(** X7.  When the resolved maximum is a whole number [M], the column
    count is, in every state an instance reaches, a whole number
    between 1 and [M]. *)
Theorem columns_whole (p : Props) (es : list Event) (M : Z) :
  Resolution.maxColumns (monster p) (layout p) = of_Z M ->
  exists k : Z, 1 <= k <= M /\ columns (run es (init p)) = of_Z k.
Proof.
  intro HM.
  assert (M1 : 1 <= M).
  { pose proof (maxColumns_positive (monster p) (layout p)) as Hpos.
    rewrite HM, positive_of_Z in Hpos. apply Z.ltb_lt in Hpos. lia. }
  assert (I : resolved (init p) /\ maxColumns (consts (init p)) = of_Z M /\
              exists k, 1 <= k <= M /\ columns (init p) = of_Z k).
  { repeat split.
    - apply maxColumns_positive.
    - apply columnWidth_pos_int.
    - exact HM.
    - exists M. split; [lia | exact HM]. }
  now destruct (run_invariant _ (step_whole M) es (init p) I) as (_ & _ & K).
Qed.

Lemma columns_whole_goblin :
  let es := [Mount; Elapse (Some 1000); Resize; Elapse (Some 90)] in
  Resolution.maxColumns (monster Sample.goblin) (layout Sample.goblin)
  = of_Z 3 /\
  exists k : Z, 1 <= k <= 3 /\ columns (run es (init Sample.goblin)) = of_Z k.
Proof.
  split; [reflexivity | ].
  exact (columns_whole Sample.goblin
                       [Mount; Elapse (Some 1000); Resize; Elapse (Some 90)]
                       3 eq_refl).
Defined.

(** ** How the count follows the width *)

Lemma min_mono (k1 k2 : Z) (M : number) :
  k1 <= k2 -> Resolution.positive M = true ->
  le (Math_min (of_Z k1) M) (Math_min (of_Z k2) M) = true.
Proof.
  intros K HM. rewrite Zle_Qle in K.
  destruct (positive_cases M HM) as [-> | (q & -> & Hq)];
    unfold Math_min, of_Z, lt, le; simpl.
  - qbool. exact K.
  - destruct (Qle_bool (inject_Z k1) q) eqn:E1,
             (Qle_bool (inject_Z k2) q) eqn:E2; simpl; qbool; lra.
Qed.

Lemma recomputed_mono (c : t) (w1 w2 : Z) :
  resolved c -> w1 <= w2 ->
  le (recomputed w1 c) (recomputed w2 c) = true.
Proof.
  intros [Hmax (z & Hz & Hw)] W. unfold recomputed.
  rewrite Hw, !(floor_div_of_Z _ _ Hz), !max_of_Z_1.
  apply min_mono; [ | exact Hmax].
  pose proof (Z.div_le_mono w1 w2 z Hz W). lia.
Qed.

(** X8.  Width-based reflow is monotone: in every state an instance
    reaches, with force-columns off, a wider container never gets fewer
    columns than a narrower one. *)
Theorem wider_is_not_fewer (p : Props) (es : list Event) (w1 w2 : Z) :
  let c := run es (init p) in
  forced c = false -> w1 <= w2 ->
  exists c1 c2, setColumns (Some w1) c = Some c1 /\
                setColumns (Some w2) c = Some c2 /\
                le (columns c1) (columns c2) = true.
Proof.
  cbv zeta. intros F W. rewrite !(setColumns_unforced _ _ F).
  do 2 eexists. repeat split. simpl.
  apply recomputed_mono; [apply run_resolved | exact W].
Qed.

Lemma wider_is_not_fewer_goblin :
  let c := run [Mount] (init Sample.goblin) in
  (forced c = false /\ 500 <= 900) /\
  exists c1 c2, setColumns (Some 500) c = Some c1 /\
                setColumns (Some 900) c = Some c2 /\
                le (columns c1) (columns c2) = true.
Proof.
  split; [split; [reflexivity | lia] | ].
  exact (wider_is_not_fewer Sample.goblin [Mount] 500 900 eq_refl
                            ltac:(lia)).
Defined.

Lemma min_one (M : number) :
  le (Finite 1) M = true -> Math_min (Finite 1) M = Finite 1.
Proof.
  destruct M as [ | | | q]; try discriminate; intro H; trivial.
  unfold Math_min, lt. unfold le in H. now rewrite H.
Qed.

(** X9.  In every state an instance reaches, with force-columns off
    and a maximum of at least 1, a container narrower than two columns
    gets exactly one column, however narrow it is. *)
Theorem narrow_is_one_column (p : Props) (es : list Event) (width z : Z) :
  let c := run es (init p) in
  forced c = false -> le (Finite 1) (maxColumns (consts c)) = true ->
  columnWidth (consts c) = of_Z z -> width < 2 * z ->
  exists c', setColumns (Some width) c = Some c' /\ columns c' = Finite 1.
Proof.
  cbv zeta. intros F M1 Hw W. rewrite (setColumns_unforced _ _ F).
  eexists. split; [reflexivity | ]. simpl. unfold recomputed.
  destruct (run_resolved p es) as [_ (z' & Hz & Hw')].
  assert (z' = z) by (apply of_Z_inj; congruence). subst z'.
  rewrite Hw, (floor_div_of_Z _ _ Hz), max_of_Z_1.
  assert (D : width / z <= 1).
  { assert (width / z < 2); [ | lia].
    apply Z.div_lt_upper_bound; lia. }
  rewrite Z.max_r by exact D. now apply min_one.
Qed.

Lemma narrow_is_one_column_goblin :
  let c := run [Mount] (init Sample.goblin) in
  (forced c = false /\ le (Finite 1) (maxColumns (consts c)) = true /\
   columnWidth (consts c) = of_Z 400 /\ 799 < 2 * 400) /\
  exists c', setColumns (Some 799) c = Some c' /\ columns c' = Finite 1.
Proof.
  split; [repeat split | ].
  exact (narrow_is_one_column Sample.goblin [Mount] 799 400
                              eq_refl eq_refl eq_refl eq_refl).
Defined.

(** X10.  In every state an instance reaches, with force-columns off
    and a whole maximum [M], a container at least [M] columns wide gets
    all [M] columns. *)
Theorem wide_is_all_columns (p : Props) (es : list Event) (width z M : Z) :
  let c := run es (init p) in
  forced c = false -> maxColumns (consts c) = of_Z M ->
  columnWidth (consts c) = of_Z z -> M * z <= width ->
  exists c', setColumns (Some width) c = Some c' /\
             columns c' = maxColumns (consts c).
Proof.
  cbv zeta. intros F HM Hw W. rewrite (setColumns_unforced _ _ F).
  eexists. split; [reflexivity | ]. simpl.
  destruct (run_resolved p es) as [Hpos (z' & Hz & Hw')].
  assert (z' = z) by (apply of_Z_inj; congruence). subst z'.
  rewrite (recomputed_whole _ width z M Hz Hw HM), HM. f_equal.
  assert (M1 : 0 < M).
  { rewrite HM, positive_of_Z in Hpos. now apply Z.ltb_lt in Hpos. }
  assert (D : M <= width / z) by (apply Z.div_le_lower_bound; lia).
  lia.
Qed.

Lemma wide_is_all_columns_goblin :
  let c := run [Mount] (init Sample.goblin) in
  (forced c = false /\ maxColumns (consts c) = of_Z 3 /\
   columnWidth (consts c) = of_Z 400 /\ 3 * 400 <= 1200) /\
  exists c', setColumns (Some 1200) c = Some c' /\
             columns c' = maxColumns (consts c).
Proof.
  split; [repeat split; lia | ].
  exact (wide_is_all_columns Sample.goblin [Mount] 1200 400 3
                             eq_refl eq_refl eq_refl ltac:(lia)).
Defined.

(** X11.  The resolved column width is a whole number of at least 1,
    whatever the creature and the layout: the quotient [setColumns]
    takes is never a division by zero, and floored it is the integer
    quotient of the two whole numbers. *)
Theorem columnWidth_never_zero
  (monster : Monster.t) (layout : Layout.t) (width : Z) :
  exists z : Z,
    1 <= z /\ Resolution.columnWidth monster layout = of_Z z /\
    Math_floor (div (of_Z width) (Resolution.columnWidth monster layout))
    = of_Z (width / z).
Proof.
  destruct (columnWidth_pos_int monster layout) as (z & Hz & Hw).
  exists z. rewrite Hw. repeat split; [lia | ].
  now apply floor_div_of_Z.
Qed.

(** ** The class list *)

Section ClassList.

Variable slugifyLayoutForCss : string -> option string -> string.

(** X12.  The class list never holds an empty class name: what
    [slugifyLayoutForCss] returns empty is left out. *)
Theorem classes_never_empty (p : Props) :
  Forall (fun n => n <> EmptyString) (classes slugifyLayoutForCss p).
Proof.
  apply Forall_forall. intros n H. unfold classes in H.
  apply filter_In in H. destruct H as [_ H].
  intros ->. discriminate H.
Qed.

Lemma find_layout_registered (plugin : Plugin.t) (id : option string)
                             (l : Layout.t) :
  find_layout plugin id = Some l ->
  In l (Plugin.getAllLayouts plugin) /\ id = Some (Layout.id l).
Proof.
  unfold find_layout. intro H. apply find_some in H. destruct H as [I E].
  split; [exact I | ]. destruct id as [i | ]; [ | discriminate E].
  apply String.eqb_eq in E. now rewrite E.
Qed.

Lemma block_classes_registered (plugin : Plugin.t) :
  forall block,
    Forall (fun class =>
              exists l, In l (Plugin.getAllLayouts plugin) /\
                        class = slugifyLayoutForCss (Layout.name l) None)
           (block_classes slugifyLayoutForCss plugin block).
Proof.
  fix IH 1. intros [type layout nested]. simpl. apply Forall_app. split.
  - destruct (String.eqb type "layout"); [ | constructor].
    destruct (find_layout plugin layout) as [l | ] eqn:E; [ | constructor].
    constructor; [ | constructor].
    exists l. split; [ | reflexivity]. now apply find_layout_registered in E.
  - destruct nested as [blocks | ]; [ | constructor].
    induction blocks as [ | b blocks IHblocks]; simpl; [constructor | ].
    apply Forall_app. split; [apply IH | exact IHblocks].
Qed.

Lemma find_all_false {A : Type} (f : A -> bool) (l : list A) :
  Forall (fun x => f x = false) l -> find f l = None.
Proof.
  induction 1 as [ | x l Hx _ IH]; simpl; [reflexivity | ].
  now rewrite Hx.
Qed.

(** X13.  Every class [getNestedLayouts] returns is the slug of the
    name of a layout of the registry.  A block that is not of type
    "layout", or that embeds a layout whose id is not registered, adds
    no class of its own: it contributes what its nested blocks
    contribute and nothing else.  With an empty registry there are no
    nested classes at all. *)
Theorem nested_classes_are_registered
  (plugin : Plugin.t) (blocks : list StatblockItem) :
  Forall (fun class =>
            exists l, In l (Plugin.getAllLayouts plugin) /\
                      class = slugifyLayoutForCss (Layout.name l) None)
         (getNestedLayouts slugifyLayoutForCss plugin blocks) /\
  (forall type id nested,
     String.eqb type "layout" = false \/
     Forall (fun l => Some (Layout.id l) <> id) (Plugin.getAllLayouts plugin) ->
     getNestedLayouts slugifyLayoutForCss plugin [Block type id nested]
     = getNestedLayouts slugifyLayoutForCss plugin (or_else nested [])) /\
  (Plugin.getAllLayouts plugin = [] ->
   getNestedLayouts slugifyLayoutForCss plugin blocks = []).
Proof.
  assert (F : Forall (fun class =>
            exists l, In l (Plugin.getAllLayouts plugin) /\
                      class = slugifyLayoutForCss (Layout.name l) None)
         (getNestedLayouts slugifyLayoutForCss plugin blocks)).
  { unfold getNestedLayouts.
    induction blocks as [ | b blocks IH]; simpl; [constructor | ].
    apply Forall_app. split; [apply block_classes_registered | exact IH]. }
  split; [exact F | ]. split.
  - intros type id nested H. unfold getNestedLayouts.
    cbn [flat_map block_classes]. rewrite app_nil_r.
    assert (Own : (if String.eqb type "layout"
                   then match find_layout plugin id with
                        | Some l => [slugifyLayoutForCss (Layout.name l) None]
                        | None => []
                        end
                   else []) = []).
    { destruct H as [H | H]; [now rewrite H | ].
      destruct (String.eqb type "layout"); [ | reflexivity].
      unfold find_layout. rewrite find_all_false; [reflexivity | ].
      apply Forall_forall. intros l I.
      rewrite Forall_forall in H. specialize (H l I).
      destruct id as [i | ]; [ | reflexivity].
      apply String.eqb_neq. congruence. }
    rewrite Own. now destruct nested.
  - intro E.
    destruct (getNestedLayouts slugifyLayoutForCss plugin blocks)
      as [ | class rest]; [reflexivity | ].
    inversion F as [ | ? ? (l & I & _) _]. rewrite E in I. destruct I.
Qed.

Lemma find_first {A : Type} (f : A -> bool) (l : list A) (x : A) :
  find f l = Some x ->
  exists before after,
    l = (before ++ x :: after)%list /\ f x = true /\
    Forall (fun y => f y = false) before.
Proof.
  induction l as [ | a l IH]; simpl; [discriminate | ].
  destruct (f a) eqn:E.
  - intro H. injection H as <-. exists [], l. repeat split; trivial.
  - intro H. destruct (IH H) as (before & after & -> & Fx & Fb).
    exists (a :: before), after. repeat split; trivial. now constructor.
Qed.

(** X14.  A block of type "layout" that names a registered id
    contributes, before anything its nested blocks contribute, the slug
    of the name of the first layout of the registry with that id: of
    two layouts registered under one id the earlier one names the
    class. *)
Theorem embedded_layout_class
  (plugin : Plugin.t) (id : string) (nested : option (list StatblockItem))
  (l : Layout.t) :
  In l (Plugin.getAllLayouts plugin) -> Layout.id l = id ->
  exists first before after rest,
    Plugin.getAllLayouts plugin = (before ++ first :: after)%list /\
    Layout.id first = id /\
    Forall (fun other => Layout.id other <> id) before /\
    getNestedLayouts slugifyLayoutForCss plugin
                     [Block "layout" (Some id) nested]
    = slugifyLayoutForCss (Layout.name first) None :: rest.
Proof.
  intros I E. unfold getNestedLayouts. simpl.
  destruct (find_layout plugin (Some id)) as [first | ] eqn:F.
  - unfold find_layout in F.
    destruct (find_first _ _ _ F) as (before & after & R & Fx & Fb).
    exists first, before, after. eexists. repeat split.
    + exact R.
    + now apply String.eqb_eq in Fx.
    + apply Forall_forall. intros other O.
      rewrite Forall_forall in Fb. specialize (Fb other O).
      now apply String.eqb_neq in Fb.
  - exfalso. unfold find_layout in F.
    apply (find_none _ _ F l) in I. simpl in I.
    apply String.eqb_neq in I. contradiction.
Qed.

End ClassList.

Lemma embedded_layout_class_goblin :
  let l := Sample.layout None None None in
  (In l (Plugin.getAllLayouts Sample.plugin) /\ Layout.id l = "basic-5e") /\
  exists first before after rest,
    Plugin.getAllLayouts Sample.plugin = (before ++ first :: after)%list /\
    Layout.id first = "basic-5e" /\
    Forall (fun other => Layout.id other <> "basic-5e") before /\
    getNestedLayouts Sample.slug Sample.plugin
                     [Block "layout" (Some "basic-5e") None]
    = Sample.slug (Layout.name first) None :: rest.
Proof.
  split; [split; [now left | reflexivity] | ].
  exact (embedded_layout_class Sample.slug Sample.plugin "basic-5e" None
                               (Sample.layout None None None)
                               (or_introl eq_refl) eq_refl).
Defined.

(** ** Stripping a width of what is not a digit *)

Lemma replace_non_digits_app (s t : string) :
  replace_non_digits (s ++ t) = replace_non_digits s ++ replace_non_digits t.
Proof.
  induction s as [ | c r IH]; simpl; [reflexivity | ].
  destruct (is_digit c); simpl; now rewrite IH.
Qed.

Lemma replace_non_digits_digits (s : string) :
  forallb is_digit (list_ascii_of_string (replace_non_digits s)) = true.
Proof.
  induction s as [ | c r IH]; simpl; [reflexivity | ].
  destruct (is_digit c) eqn:E; simpl; [rewrite E | ]; exact IH.
Qed.

Lemma replace_non_digits_fixed (s : string) :
  forallb is_digit (list_ascii_of_string s) = true ->
  replace_non_digits s = s.
Proof.
  induction s as [ | c r IH]; simpl; [reflexivity | ].
  intro H. apply andb_true_iff in H. destruct H as [Hc Hr].
  now rewrite Hc, (IH Hr).
Qed.

(** X15.  Stripping leaves decimal digits only, in their order; it
    changes nothing in a text that is all digits, so stripping twice is
    stripping once; and it works piece by piece: the stripped
    concatenation is the concatenation of the stripped parts. *)
Theorem replace_non_digits_strips (s t : string) :
  forallb is_digit (list_ascii_of_string (replace_non_digits s)) = true /\
  replace_non_digits (replace_non_digits s) = replace_non_digits s /\
  replace_non_digits (s ++ t) = replace_non_digits s ++ replace_non_digits t.
Proof.
  repeat split.
  - apply replace_non_digits_digits.
  - apply replace_non_digits_fixed, replace_non_digits_digits.
  - apply replace_non_digits_app.
Qed.

(** ** The sign of a width *)

Lemma Qopp_opp (q : Q) : (- - q)%Q = q.
Proof. destruct q as [n d]. unfold Qopp. simpl. now rewrite Z.opp_involutive. Qed.

Lemma is_zero_opp (q : Q) : is_zero (- q) = is_zero q.
Proof.
  unfold is_zero.
  destruct (Qeq_bool q 0) eqn:E.
  - apply Qeq_bool_iff in E. apply Qeq_bool_iff. lra.
  - destruct (Qeq_bool (- q) 0) eqn:E'; trivial.
    apply Qeq_bool_iff in E'. apply Qeq_bool_neq in E. exfalso. apply E. lra.
Qed.

Lemma is_neg_opp (q : Q) :
  is_zero q = false -> is_neg (- q) = negb (is_neg q).
Proof.
  unfold is_zero, is_neg. intro Z. apply Qeq_bool_neq in Z.
  destruct (Qle_bool 0 q) eqn:E, (Qle_bool 0 (- q)) eqn:E'; simpl; trivial;
    qbool; exfalso; [apply Z | ]; lra.
Qed.

Lemma toString_opp (q : Q) :
  replace_non_digits (toString (Finite (- q)))
  = replace_non_digits (toString (Finite q)).
Proof.
  unfold toString. rewrite is_zero_opp.
  destruct (is_zero q) eqn:Z; [reflexivity | ].
  rewrite (is_neg_opp q Z).
  destruct (is_neg q); simpl negb; cbv iota.
  - now rewrite replace_non_digits_app.
  - now rewrite replace_non_digits_app, Qopp_opp.
Qed.

(** X16.  The sign of a creature's column width is dropped with the
    other characters that are not digits: a width and its negative
    resolve to the same column width. *)
Theorem negative_width_is_its_absolute
  (m1 m2 : Monster.t) (l1 l2 : Layout.t) (q : Q) :
  Monster.columnWidth m1 = Some (Finite q) ->
  Monster.columnWidth m2 = Some (Finite (- q)) ->
  Resolution.columnWidth m1 l1 = Resolution.columnWidth m2 l2.
Proof.
  intros H1 H2. rewrite !columnWidth_resolved.
  unfold Resolution.monsterColumnWidth, template_literal. rewrite H1, H2.
  now rewrite toString_opp.
Qed.

Lemma negative_width_is_its_absolute_350 :
  let m1 := Sample.monster None (Some (Finite 350)) None in
  let m2 := Sample.monster None (Some (Finite (- (350)))) None in
  let l := Sample.layout None None None in
  (Monster.columnWidth m1 = Some (Finite 350) /\
   Monster.columnWidth m2 = Some (Finite (- (350)))) /\
  Resolution.columnWidth m1 l = Resolution.columnWidth m2 l.
Proof.
  split; [split; reflexivity | ].
  exact (negative_width_is_its_absolute
           (Sample.monster None (Some (Finite 350)) None)
           (Sample.monster None (Some (Finite (- (350)))) None)
           (Sample.layout None None None) (Sample.layout None None None)
           350 eq_refl eq_refl).
Defined.

(** ** A whole width read back from its text *)

Lemma digits_value_app (s t : string) (acc : N) :
  digits_value (s ++ t) acc =
  match digits_value s acc with
  | Some v => digits_value t v
  | None => None
  end.
Proof.
  revert acc. induction s as [ | c r IH]; intro acc; simpl; [reflexivity | ].
  destruct (is_digit c); [apply IH | reflexivity].
Qed.

Lemma digits_value_zeros (e : nat) (v : N) :
  digits_value (zeros e) v = Some (v * 10 ^ N.of_nat e)%N.
Proof.
  revert v. induction e as [ | e IH]; intro v.
  - simpl. f_equal. lia.
  - cbn [zeros digits_value]. change (is_digit "0") with true. cbv iota.
    rewrite IH. f_equal. rewrite Nnat.Nat2N.inj_succ, N.pow_succ_r'.
    change (N_of_ascii "0" - 48)%N with 0%N. lia.
Qed.

Lemma digits_value_fixed (s : string) (acc v : N) :
  digits_value s acc = Some v -> replace_non_digits s = s.
Proof.
  revert acc. induction s as [ | c r IH]; intro acc; simpl; [reflexivity | ].
  destruct (is_digit c); [ | discriminate].
  intro H. now rewrite (IH _ H).
Qed.

Lemma digits_value_acc (d : Decimal.uint) (acc : positive) :
  digits_value (NilEmpty.string_of_uint d) (Npos acc)
  = Some (Npos (Pos.of_uint_acc d acc)).
Proof.
  revert acc. induction d; intro acc; [reflexivity | ..];
    cbn [NilEmpty.string_of_uint digits_value Pos.of_uint_acc];
    match goal with
    | |- context [is_digit ?c] =>
        change (is_digit c) with true; cbv iota;
        let x := eval vm_compute in (N_of_ascii c - 48)%N in
        change (N_of_ascii c - 48)%N with x
    end;
    rewrite <- IHd; f_equal; lia.
Qed.

Lemma digits_value_uint (d : Decimal.uint) :
  digits_value (NilEmpty.string_of_uint d) 0 = Some (Pos.of_uint d).
Proof.
  induction d; [reflexivity | ..];
    cbn [NilEmpty.string_of_uint digits_value Pos.of_uint];
    match goal with
    | |- context [is_digit ?c] =>
        change (is_digit c) with true; cbv iota;
        let x := eval vm_compute in (10 * 0 + (N_of_ascii c - 48))%N in
        change (10 * 0 + (N_of_ascii c - 48))%N with x
    end;
    [exact IHd | apply digits_value_acc ..].
Qed.

Lemma digits_value_digits (n : N) : digits_value (digits n) 0 = Some n.
Proof.
  unfold digits, NilZero.string_of_uint.
  destruct (N.to_uint n) eqn:E;
    try (rewrite <- E, digits_value_uint;
         f_equal; apply DecimalN.Unsigned.of_to).
  destruct n as [ | p]; [discriminate E | ].
  now apply DecimalPos.Unsigned.to_uint_nonnil in E.
Qed.

Lemma strip_spec (fuel : nat) (s : N) (e : Z) :
  (0 < s)%N ->
  (0 < fst (strip fuel s e))%N /\ e <= snd (strip fuel s e) /\
  s = (fst (strip fuel s e) * 10 ^ Z.to_N (snd (strip fuel s e) - e))%N.
Proof.
  revert s e. induction fuel as [ | fuel IH]; intros s e Hs.
  - simpl. rewrite Z.sub_diag. simpl. repeat split; lia.
  - cbn [strip].
    destruct ((0 <? s)%N && (s mod 10 =? 0)%N) eqn:C.
    + apply andb_true_iff in C. destruct C as [_ C]. apply N.eqb_eq in C.
      assert (D : s = (10 * (s / 10))%N).
      { rewrite (N.div_mod s 10) at 1 by discriminate. lia. }
      assert (Hq : (0 < s / 10)%N) by lia.
      destruct (IH (s / 10)%N (e + 1) Hq) as (P & L & E).
      repeat split; [exact P | lia | ].
      replace (Z.to_N (snd (strip fuel (s / 10) (e + 1)) - e))
        with (N.succ (Z.to_N (snd (strip fuel (s / 10) (e + 1)) - (e + 1))))
        by lia.
      rewrite N.pow_succ_r'. rewrite D at 1. rewrite E at 1. lia.
    + simpl. rewrite Z.sub_diag. simpl. repeat split; lia.
Qed.

Lemma of_uint_acc_lower (d : Decimal.uint) (acc : positive) :
  (N.pos acc * 10 ^ N.of_nat (String.length (NilEmpty.string_of_uint d))
   <= N.pos (Pos.of_uint_acc d acc))%N.
Proof.
  revert acc. induction d; intro acc;
    [simpl; lia | ..];
    cbn [NilEmpty.string_of_uint String.length Pos.of_uint_acc];
    rewrite Nnat.Nat2N.inj_succ, N.pow_succ_r';
    match goal with
    | |- (_ <= N.pos (Pos.of_uint_acc _ ?a))%N =>
        specialize (IHd a);
        apply N.le_trans with
          (N.pos a * 10 ^ N.of_nat (String.length (NilEmpty.string_of_uint d)))%N;
        [ | exact IHd]
    end;
    rewrite N.mul_assoc; apply N.mul_le_mono_r; lia.
Qed.

Lemma nzhead_not_D0 (d l : Decimal.uint) : Decimal.nzhead d <> Decimal.D0 l.
Proof. induction d; simpl; try discriminate. exact IHd. Qed.

Lemma to_uint_unorm (p : positive) :
  Pos.to_uint p = Decimal.unorm (Pos.to_uint p).
Proof.
  rewrite <- DecimalPos.Unsigned.to_of, DecimalPos.Unsigned.of_to.
  reflexivity.
Qed.

(** A positive whole number has no more digits than its size allows. *)
Lemma digits_lower (p : positive) :
  (10 ^ (N.of_nat (String.length (digits (N.pos p))) - 1) <= N.pos p)%N.
Proof.
  unfold digits, NilZero.string_of_uint. cbn [N.to_uint].
  pose proof (to_uint_unorm p) as U.
  pose proof (DecimalPos.Unsigned.of_to p) as O.
  destruct (Pos.to_uint p) as [ | l | l | l | l | l | l | l | l | l | l] eqn:E.
  1: now apply DecimalPos.Unsigned.to_uint_nonnil in E.
  1: { exfalso. unfold Decimal.unorm in U. cbn [Decimal.nzhead] in U.
       destruct (Decimal.nzhead l) eqn:N;
         try (symmetry in U; now apply (nzhead_not_D0 l l); rewrite N).
       injection U as ->. now apply DecimalPos.Unsigned.to_uint_nonzero in E. }
  all: cbn [NilEmpty.string_of_uint String.length];
    rewrite Nnat.Nat2N.inj_succ, N.sub_1_r, N.pred_succ;
    cbn [Pos.of_uint] in O; rewrite <- O;
    match goal with
    | |- (_ <= N.pos (Pos.of_uint_acc _ ?a))%N =>
        apply N.le_trans with
          (N.pos a * 10 ^ N.of_nat (String.length (NilEmpty.string_of_uint l)))%N;
        [ | apply of_uint_acc_lower]
    end; lia.
Qed.

Lemma decimal_whole (p : positive) :
  decimal (Z.pos p # 1) = strip (S (N.to_nat (N.log2 (N.pos p)))) (N.pos p) 0.
Proof.
  unfold decimal.
  rewrite Qcanon.Qred_identity by apply Z.gcd_1_r.
  cbn [Qnum Qden Z.to_N]. cbn [scale N.log2 N.to_nat].
  now rewrite N.mod_1_r, N.div_1_r.
Qed.

(** The text of a positive whole number below 10^21 is its digits. *)
Lemma positive_toString_whole (p : positive) :
  Z.pos p < 10 ^ 21 ->
  exists (s : N) (e : nat),
    positive_toString (Z.pos p # 1) = digits s ++ zeros e /\
    (s * 10 ^ N.of_nat e)%N = N.pos p.
Proof.
  intro B. unfold positive_toString. rewrite decimal_whole.
  destruct (strip_spec (S (N.to_nat (N.log2 (N.pos p)))) (N.pos p) 0)
    as (Hs & He & E); [lia | ].
  destruct (strip (S (N.to_nat (N.log2 (N.pos p)))) (N.pos p) 0) as [s e].
  cbn [fst snd] in *. rewrite Z.sub_0_r in E.
  destruct s as [ | s]; [lia | ].
  pose proof (digits_lower s) as L.
  set (k := String.length (digits (N.pos s))) in *.
  assert (K : (N.of_nat k - 1 + Z.to_N e < 21)%N).
  { apply (N.pow_lt_mono_r_iff 10); [lia | ].
    rewrite N.pow_add_r.
    apply N.le_lt_trans with (N.pos p); [ | lia].
    rewrite E. now apply N.mul_le_mono_r. }
  assert (K1 : (1 <= k)%nat).
  { subst k. unfold digits, NilZero.string_of_uint. cbn [N.to_uint].
    destruct (Pos.to_uint s) eqn:U; simpl; try lia. }
  replace (-5 <=? Z.of_nat k + e) with true by (symmetry; apply Z.leb_le; lia).
  replace (Z.of_nat k + e <=? 21) with true by (symmetry; apply Z.leb_le; lia).
  replace (Z.of_nat k <=? Z.of_nat k + e) with true
    by (symmetry; apply Z.leb_le; lia).
  cbn [andb]. exists (N.pos s), (Z.to_nat (Z.of_nat k + e - Z.of_nat k)).
  split; [reflexivity | ].
  rewrite E. do 2 f_equal. lia.
Qed.

Lemma monsterColumnWidth_whole (monster : Monster.t) (n : Z) :
  1 <= n < 10 ^ 21 -> Monster.columnWidth monster = Some (of_Z n) ->
  Resolution.monsterColumnWidth monster = of_Z n.
Proof.
  intros [N1 N2] H. unfold Resolution.monsterColumnWidth, template_literal.
  rewrite H. destruct n as [ | p | p]; try lia.
  unfold of_Z, toString, inject_Z.
  change (is_zero (Z.pos p # 1)) with false.
  change (is_neg (Z.pos p # 1)) with false. cbv iota.
  destruct (positive_toString_whole p N2) as (s & e & -> & E).
  assert (V : digits_value (digits s ++ zeros e) 0 = Some (N.pos p)).
  { now rewrite digits_value_app, digits_value_digits, digits_value_zeros, E. }
  rewrite (digits_value_fixed _ _ _ V). unfold StringToNumber. now rewrite V.
Qed.

(** X17.  A creature's column width that is a whole number from 1 to
    below 10^21 is read back unchanged from its text: it is the
    resolved column width. *)
Theorem whole_width_is_kept
  (monster : Monster.t) (layout : Layout.t) (n : Z) :
  1 <= n < 10 ^ 21 -> Monster.columnWidth monster = Some (of_Z n) ->
  Resolution.columnWidth monster layout = of_Z n.
Proof.
  intros B H. rewrite columnWidth_resolved.
  rewrite (monsterColumnWidth_whole monster n B H), positive_of_Z.
  replace (0 <? n) with true by (symmetry; apply Z.ltb_lt; lia).
  reflexivity.
Qed.

Lemma whole_width_is_kept_350 :
  let monster := Sample.monster None (Some (of_Z 350)) None in
  let layout := Sample.layout None (Some (Finite 300)) None in
  (1 <= 350 < 10 ^ 21 /\ Monster.columnWidth monster = Some (of_Z 350)) /\
  Resolution.columnWidth monster layout = of_Z 350.
Proof.
  split; [split; [lia | reflexivity] | ].
  exact (whole_width_is_kept
           (Sample.monster None (Some (of_Z 350)) None)
           (Sample.layout None (Some (Finite 300)) None)
           350 ltac:(lia) eq_refl).
Defined.

(** From 10^21 on the text is in exponent notation and the exponent's
    digits are read as part of the width. *)
Example huge_width_is_garbled :
  Resolution.columnWidth
    (Sample.monster None (Some (of_Z (10 ^ 21))) None)
    (Sample.layout None None None)
  = of_Z 121.
Proof. reflexivity. Qed.

(** ** The menu *)

(** X18.  "Reset Dice" is on the menu exactly when the dice roller can
    be used and dice are switched on for the creature (by the creature,
    else by the settings) at creation, whatever happens to the instance
    later; "Save to Bestiary" is the only item that can be disabled,
    and it is exactly when [canSave] is false. *)
Theorem menu_items (p : Props) (es : list Event) (canSave : bool) :
  let c := run es (init p) in
  let menu := Menu.items canSave (canDice (consts c)) in
  existsb (fun item => String.eqb (Menu.title item) "Reset Dice") menu
  = Plugin.canUseDiceRoller (plugin p) &&
    or_else (Monster.dice (monster p))
            (StatblockData.useDice (Plugin.settings (plugin p))) /\
  map Menu.onClick (filter Menu.disabled menu)
  = (if canSave then [] else [Menu.Save]).
Proof.
  cbv zeta. rewrite run_consts. simpl canDice.
  unfold Resolution.canDice.
  destruct (Plugin.canUseDiceRoller (plugin p) &&
            or_else (Monster.dice (monster p))
                    (StatblockData.useDice (Plugin.settings (plugin p))));
    destruct canSave; repeat split.
Qed.

Lemma click_pulse (s : Menu.Store) :
  Menu.value s = false ->
  Menu.click s
  = {| Menu.value := false; Menu.told := (Menu.told s ++ [true; false])%list |}.
Proof.
  destruct s as [v told]. simpl. intros ->.
  unfold Menu.click, Menu.set. simpl. now rewrite <- app_assoc.
Qed.

Lemma concat_repeat_snoc {A : Type} (x : list A) (n : nat) :
  (List.concat (repeat x n) ++ x)%list = List.concat (repeat x (S n)).
Proof.
  induction n as [ | n IH]; [simpl; now rewrite app_nil_r | ].
  change (repeat x (S (S n))) with (x :: repeat x (S n)).
  change (repeat x (S n)) with (x :: repeat x n) at 1.
  cbn [List.concat]. now rewrite <- app_assoc, IH.
Qed.

(** X19.  Every click on "Reset Dice" tells the subscribers of [reset]
    true and then false and leaves the store false, so that the next
    click is told again: after [n] clicks they have been told [n] such
    pairs and nothing else. *)
Theorem reset_pulses (n : nat) :
  Menu.value (Nat.iter n Menu.click Menu.reset) = false /\
  Menu.told (Nat.iter n Menu.click Menu.reset)
  = List.concat (repeat [true; false] n).
Proof.
  induction n as [ | n [V T]]; [split; reflexivity | ].
  change (Nat.iter (S n) Menu.click Menu.reset)
    with (Menu.click (Nat.iter n Menu.click Menu.reset)).
  rewrite (click_pulse _ V). cbn [Menu.value Menu.told].
  split; [reflexivity | ]. rewrite T. apply concat_repeat_snoc.
Qed.

(** ** The file of a generated image *)

Lemma pop_none {A : Type} (l : list A) : Image.pop l = None -> l = [].
Proof.
  induction l as [ | x l IH]; [reflexivity | ].
  destruct l as [ | y l]; [discriminate | ].
  intro H. specialize (IH H). discriminate IH.
Qed.

Lemma pop_app {A : Type} (a b : list A) :
  Image.pop (a ++ b)%list =
  match Image.pop b with
  | Some x => Some x
  | None => Image.pop a
  end.
Proof.
  induction a as [ | x a IH].
  - simpl. now destruct (Image.pop b).
  - destruct a as [ | y a].
    + destruct b as [ | z b]; [reflexivity | ].
      change (Image.pop ([x] ++ z :: b)%list) with (Image.pop (z :: b)).
      destruct (Image.pop (z :: b)) eqn:E; [reflexivity | ].
      apply pop_none in E. discriminate E.
    + change (Image.pop ((x :: y :: a) ++ b)%list)
        with (Image.pop ((y :: a) ++ b)%list).
      rewrite IH. reflexivity.
Qed.

(** X20.  For an array note the link is the last text in reading
    order, at any depth: the last item decides, unless it is an array
    without any text, in which case the items before it decide; an
    array without any text gives no link. *)
Theorem note_array_last (items : list Image.Note) (last : Image.Note) :
  Image.notePath (Image.Array (items ++ [last])) =
  match Image.notePath last with
  | Some s => Some s
  | None => Image.notePath (Image.Array items)
  end /\
  (Image.notePath (Image.Array items) = None -> Image.flat items = []).
Proof.
  split.
  - unfold Image.notePath at 1 3. unfold Image.flat.
    rewrite flat_map_app, pop_app. cbn [flat_map]. rewrite app_nil_r.
    now destruct last.
  - apply pop_none.
Qed.

Lemma split_nonempty (s : string) : Image.split s <> [].
Proof.
  destruct s as [ | c r]; simpl; [discriminate | ].
  destruct (Ascii.eqb c "/"); [discriminate | ].
  destruct (Image.split r); discriminate.
Qed.

Lemma split_no_slash (s : string) :
  Image.no_slash s = true -> Image.split s = [s].
Proof.
  unfold Image.no_slash.
  induction s as [ | c r IH]; simpl; [reflexivity | ].
  intro H. apply andb_true_iff in H. destruct H as [Hc Hr].
  apply negb_true_iff in Hc. now rewrite Hc, (IH Hr).
Qed.

(** Splitting works piece by piece around a slash. *)
Lemma split_slash (a b : string) :
  Image.split (a ++ String "/" b) = (Image.split a ++ Image.split b)%list.
Proof.
  induction a as [ | c r IH]; [reflexivity | ].
  cbn [append Image.split]. rewrite IH.
  destruct (Ascii.eqb c "/"); [reflexivity | ].
  destruct (Image.split r) as [ | segment segments] eqn:E; [ | reflexivity].
  now apply split_nonempty in E.
Qed.

(** X21.  The notice names the updated file without its folders: the
    text after the last slash of its path, the whole path if it has no
    slash. *)
Theorem notice_names_file (folder name : string) :
  Image.no_slash name = true ->
  Image.notice (folder ++ String "/" name) = "Image updated in " ++ name /\
  Image.notice name = "Image updated in " ++ name.
Proof.
  intro H. unfold Image.notice.
  rewrite split_slash, pop_app, (split_no_slash name H). split; reflexivity.
Qed.

Lemma notice_names_file_goblin :
  Image.no_slash "Goblin.md" = true /\
  Image.notice ("Bestiary/Monsters" ++ String "/" "Goblin.md")
  = "Image updated in " ++ "Goblin.md" /\
  Image.notice "Goblin.md" = "Image updated in " ++ "Goblin.md".
Proof.
  split; [reflexivity | ].
  exact (notice_names_file "Bestiary/Monsters" "Goblin.md" eq_refl).
Defined.

Lemma substring_all (s : string) : substring 0 (String.length s) s = s.
Proof. induction s as [ | c r IH]; simpl; [reflexivity | now rewrite IH]. Qed.

Lemma substring_suffix (a b : string) :
  substring (String.length a) (String.length b) (a ++ b) = b.
Proof.
  induction a as [ | c r IH]; simpl; [apply substring_all | exact IH].
Qed.

Lemma length_append (a b : string) :
  String.length (a ++ b) = (String.length a + String.length b)%nat.
Proof. induction a as [ | c r IH]; simpl; [reflexivity | now rewrite IH]. Qed.

Lemma substring_split (s : string) (n : nat) :
  (n <= String.length s)%nat ->
  s = substring 0 n s ++ substring n (String.length s - n) s.
Proof.
  revert n. induction s as [ | c r IH]; intros n H.
  - destruct n; reflexivity.
  - destruct n as [ | n].
    + cbn [substring append]. simpl String.length. rewrite Nat.sub_0_r.
      cbn [substring]. now rewrite substring_all.
    + simpl in H. cbn [substring append]. simpl String.length.
      cbn [Nat.sub]. f_equal. apply IH. lia.
Qed.

(** [endsWith] holds exactly of the texts that end with the suffix. *)
Lemma endsWith_spec (s suffix : string) :
  Image.endsWith s suffix = true <-> exists stem, s = stem ++ suffix.
Proof.
  unfold Image.endsWith. split.
  - intro H. apply andb_true_iff in H. destruct H as [L E].
    apply Nat.leb_le in L. apply String.eqb_eq in E.
    exists (substring 0 (String.length s - String.length suffix) s).
    pose proof (substring_split s (String.length s - String.length suffix))
      as S.
    replace (String.length s - (String.length s - String.length suffix))%nat
      with (String.length suffix) in S by lia.
    rewrite E in S. apply S. lia.
  - intros [stem ->]. rewrite length_append. apply andb_true_iff. split.
    + apply Nat.leb_le. lia.
    + replace (String.length stem + String.length suffix
               - String.length suffix)%nat
        with (String.length stem) by lia.
      rewrite substring_suffix. apply String.eqb_refl.
Qed.

Section SourceFile.

Variable getFirstLinkpathDest : option string -> string -> option string.

(** X22.  The file to update is chosen in this order.  A creature with
    a non-empty [path] has that file, whatever its note and the context
    are.  Otherwise a creature with a note has the file the note links
    to, and none if the link does not resolve, even in a markdown
    context.  Otherwise the context is the file exactly when it ends in
    ".md".  The file is never the empty text. *)
Theorem source_file_order (monster : Image.Origin) (context : string) :
  let file := Image.updated getFirstLinkpathDest monster context in
  (Image.truthy_text (Image.path monster) = true ->
   file = Image.path monster) /\
  (forall n f, Image.truthy_text (Image.path monster) = false ->
               Image.note monster = Some n ->
               Image.truthy_note (Some n) = true ->
               (file = Some f <->
                getFirstLinkpathDest (Image.notePath n) context = Some f /\
                f <> EmptyString)) /\
  (Image.truthy_text (Image.path monster) = false ->
   Image.truthy_note (Image.note monster) = false ->
   (file = Some context <-> exists stem, context = stem ++ ".md") /\
   (file = None \/ file = Some context)) /\
  file <> Some EmptyString.
Proof.
  cbv zeta. unfold Image.updated, Image.sourceFile.
  split; [ | split; [ | split]].
  - intro P. rewrite P. now rewrite P.
  - intros n f P N T. rewrite P, N, T.
    destruct (getFirstLinkpathDest (Image.notePath n) context)
      as [[ | c r] | ]; simpl; split;
      try discriminate; try (intros [H H']; congruence).
    intro H. split; [exact H | ]. injection H as <-. discriminate.
  - intros P N. rewrite P, N.
    destruct (Image.truthy_text (Some context) && Image.endsWith context ".md")
      eqn:E.
    + apply andb_true_iff in E. destruct E as [T E]. rewrite T.
      split; [ | now right]. split; [ | reflexivity].
      intros _. now apply endsWith_spec.
    + split; [ | now left]. split; [discriminate | ].
      intros [stem ->]. exfalso.
      assert (E' : Image.endsWith (stem ++ ".md") ".md" = true)
        by (apply endsWith_spec; now exists stem).
      assert (T : Image.truthy_text (Some (stem ++ ".md")) = true)
        by now destruct stem.
      rewrite T, E' in E. discriminate E.
  - match goal with
    | |- (if Image.truthy_text ?f then _ else _) <> _ =>
        destruct f as [[ | c r] | ]; simpl; discriminate
    end.
Qed.

End SourceFile.
